(** * Brewing temperature monitor: record handlers

    A shallow embedding of the Go package [handlers] (record ingest, the
    Flux query builder and the result shaper) together with the helper
    [helpers.IsInArray] and the model [models.SensorData].

    Go strings are [string], [float64] is the IEEE-754 binary64 instance of
    [spec_float], [map[string]interface{}] is [gmap string Value], and the
    InfluxDB client interface is a record of operations working on an
    explicit store state. *)

From Stdlib Require Import ZArith QArith Lia Ascii String List Bool.
From Stdlib Require Import Floats.SpecFloat.
From Stdlib Require Import DecimalString.
From Stdlib Require DecimalPos DecimalZ.
From stdpp Require Import base strings gmap list fin_maps.

Close Scope Q_scope.
Open Scope Z_scope.
Open Scope stdpp_scope.

(** Let [simpl] and [cbn] evaluate string concatenation on literals. *)
#[local] Arguments String.append !_ _ : simpl nomatch.

(* ===================================================================== *)
(** * Package [helpers] *)
(* ===================================================================== *)

Module helpers.

(** The constraint [comparable]: the type has Go's [==].  [equal a b] is
    the result of [a == b]; [None] is the run-time panic of comparing two
    interface values whose common dynamic type is not comparable. *)
Class Comparable (T : Type) := equal : T -> T -> option bool.

(** [==] on strings, on [int] and on [float64] (IEEE: NaN equals nothing,
    not even itself, and 0.0 equals -0.0). *)
#[global] Instance string_comparable : Comparable string :=
  fun a b => Some (String.eqb a b).
#[global] Instance int_comparable : Comparable Z :=
  fun a b => Some (Z.eqb a b).
#[global] Instance float64_comparable : Comparable spec_float :=
  fun a b => Some (SFeqb a b).

(** An interface value ([interface{}], which satisfies [comparable]) whose
    dynamic type is [string], [float64] or the slice type [[]int].  Values
    of different dynamic types are unequal; two slices panic. *)
Inductive Any :=
| AnyString (s : string)
| AnyFloat (f : spec_float)
| AnyInts (l : list Z).

#[global] Instance any_comparable : Comparable Any :=
  fun a b =>
    match a, b with
    | AnyString x, AnyString y => Some (String.eqb x y)
    | AnyFloat x, AnyFloat y => Some (SFeqb x y)
    | AnyInts _, AnyInts _ => None
    | _, _ => Some false
    end.

Section IsInArray.
(** [func IsInArray[T comparable](element T, array []T) bool].  [Some b] is
    the boolean returned, [None] a panic in one of the comparisons. *)
Context {T : Type} `{Comparable T}.

Fixpoint IsInArray (element : T) (array : list T) : option bool :=
  match array with
  | [] => Some false
  | el :: rest =>
      match equal element el with
      | None => None
      | Some true => Some true
      | Some false => IsInArray element rest
      end
  end.
End IsInArray.

End helpers.

(* ===================================================================== *)
(** * The parts of the Go standard library the handlers call *)
(* ===================================================================== *)

Module strings.

(** [strings.Split(s, sep)] for a separator of one byte, which is how both
    call sites use it ([","] and ["_"]).  The result is never empty: a string
    without the separator is returned as its own single element. *)
Fixpoint Split (s : string) (sep : ascii) : list string :=
  match s with
  | EmptyString => [EmptyString]
  | String c s' =>
      if Ascii.eqb c sep then EmptyString :: Split s' sep
      else match Split s' sep with
           | hd :: tl => String c hd :: tl
           | [] => [String c EmptyString]
           end
  end.

(** [strings.Join(elems, sep)]. *)
Fixpoint Join (elems : list string) (sep : string) : string :=
  match elems with
  | [] => EmptyString
  | [e] => e
  | e :: rest => e +:+ sep +:+ Join rest sep
  end.

(** [strings.Builder]: the buffer is kept as the sequence of chunks handed to
    [WriteString]; [String()] is their concatenation. *)
Definition Builder := list string.
Definition newBuilder : Builder := [].
Definition WriteString (b : Builder) (s : string) : Builder := b ++ [s].
Definition String_ (b : Builder) : string := foldr String.append EmptyString b.

End strings.

Module fmt.

(** [fmt.Sprintf] restricted to the verb the handlers use, [%s] with string
    operands: it is Go's function on the formats in which [%] occurs only in
    [%s], given no more operands than verbs.  A missing operand prints Go's
    [%!s(MISSING)].  The literal formats of the handlers are of that kind;
    a format into which a handler splices the bucket is so when the bucket
    holds no [%]. *)
Fixpoint Sprintf (format : string) (args : list string) : string :=
  match format with
  | EmptyString => EmptyString
  | String "%" (String "s" rest) =>
      match args with
      | a :: args' => a +:+ Sprintf rest args'
      | [] => "%!s(MISSING)" +:+ Sprintf rest []
      end
  | String c rest => String c (Sprintf rest args)
  end.

End fmt.

(* ===================================================================== *)
(** * Package [models] *)
(* ===================================================================== *)

Module models.

(** [float64]: IEEE-754 binary64. *)
Definition prec : Z := 53.
Definition emax : Z := 1024.
Definition float64 : Type := spec_float.

Definition is_float64 (f : float64) : bool := valid_binary prec emax f.

(** The float64 nearest to the integer [z] (exact for the constants below). *)
Definition float64_of_Z (z : Z) : float64 := binary_normalize prec emax z 0 false.

(** Go's comparison operators on float64. *)
Definition flt (a b : float64) : bool := SFltb a b.
Definition feq (a b : float64) : bool := SFeqb a b.

(** The rational number a finite float64 stands for ([None] for the
    infinities and NaN). *)
Definition float64_value (f : float64) : option Q :=
  match f with
  | S754_zero _ => Some 0%Q
  | S754_finite s m e =>
      let z := if s then Zneg m else Zpos m in
      Some (if 0 <=? e then inject_Z (z * 2 ^ e)
            else Qmake z (2 ^ Z.to_pos (- e))%positive)
  | S754_infinity _ | S754_nan => None
  end.

(** [time.Time], with the three fields of the struct.  For a time without
    monotonic clock reading, as the JSON decoder yields, [wall] is the
    nanosecond within the second and [ext] the number of seconds since
    January 1, year 1, 00:00:00 UTC; [loc] is the location, [None] (a nil
    pointer) standing for UTC. *)
Record Time := { wall : Z; ext : Z; loc : option string }.

(** [time.Time{}], the zero value of the struct. *)
Definition zeroTime : Time := {| wall := 0; ext := 0; loc := None |}.

(** The struct is its zero value: all three fields are zero. *)
Definition Time_isZero (t : Time) : bool :=
  (wall t =? 0) && (ext t =? 0)
  && match loc t with None => true | Some _ => false end.

(** [type SensorData struct].  Every field carries [binding:"required"]. *)
Record SensorData := {
  DeviceID : string;
  Temperature : float64;
  Humidity : float64;
  Location : string;
  TimestampSampled : Time
}.

End models.

(* ===================================================================== *)
(** * The InfluxDB client and the gin request context *)
(* ===================================================================== *)

Module influxdb2.
Import models.

(** Values of a result row ([interface{}]); [VNil] is Go's [nil], which is
    what indexing a map at a missing key yields. *)
Inductive Value :=
| VNil
| VString (s : string)
| VInt (z : Z)
| VFloat (f : float64)
| VTime (t : Time).

(** A point built by [NewPointWithMeasurement ... AddTag ... AddField ... SetTime]. *)
Record Point := {
  measurement : string;
  tags : list (string * string);
  fields : list (string * Value);
  time : Time
}.

Definition NewPointWithMeasurement (m : string) : Point :=
  {| measurement := m; tags := []; fields := []; time := zeroTime |}.
Definition AddTag (k v : string) (p : Point) : Point :=
  {| measurement := measurement p; tags := tags p ++ [(k, v)];
     fields := fields p; time := time p |}.
Definition AddField (k : string) (v : Value) (p : Point) : Point :=
  {| measurement := measurement p; tags := tags p;
     fields := fields p ++ [(k, v)]; time := time p |}.
Definition SetTime (t : Time) (p : Point) : Point :=
  {| measurement := measurement p; tags := tags p;
     fields := fields p; time := t |}.

(** [api.QueryTableResult]: the rows handed out by [Next]/[Record], and the
    error [Err] reports once the rows are exhausted (a mid-stream failure). *)
Record QueryTableResult := {
  rows : list (gmap string Value);
  Err : option string
}.

(** What the process did to the store, in order. *)
Inductive Call :=
| CallWrite (org bucket : string) (p : Point)
| CallQuery (org : string) (query : string).

Definition is_write (c : Call) : bool :=
  match c with CallWrite _ _ _ => true | CallQuery _ _ => false end.
Definition is_query (c : Call) : bool :=
  match c with CallQuery _ _ => true | CallWrite _ _ _ => false end.

(** The [influxdb2.Client] interface.  The server is not part of the
    program: its answers are given by the client as functions of the calls
    made so far. *)
Record Client := {
  write_answer : list Call -> string -> string -> Point -> option string;
  query_answer : list Call -> string -> string -> QueryTableResult + string
}.

(** Computations that talk to the store: state passing over the call log. *)
Definition M (A : Type) : Type := list Call -> A * list Call.
Definition ret {A} (a : A) : M A := fun log => (a, log).
Definition bind {A B} (m : M A) (k : A -> M B) : M B :=
  fun log => let '(a, log') := m log in k a log'.

(** [client.WriteAPIBlocking(org, bucket).WritePoint(ctx, point)]. *)
Definition WritePoint (cl : Client) (org bucket : string) (p : Point)
  : M (option string) :=
  fun log => (write_answer cl log org bucket p, log ++ [CallWrite org bucket p]).

(** [client.QueryAPI(org).Query(ctx, query)]. *)
Definition Query (cl : Client) (org query : string)
  : M (QueryTableResult + string) :=
  fun log => (query_answer cl log org query, log ++ [CallQuery org query]).

End influxdb2.

#[global] Instance M_ret : MRet influxdb2.M := @influxdb2.ret.
#[global] Instance M_bind : MBind influxdb2.M :=
  fun A B k m => influxdb2.bind m k.

Module gin.
Import models.

(** [*gin.Context], as far as the handlers read it: the path parameters, the
    URL query values (first value of each key) and the request body as the
    JSON decoder fills a [SensorData] from it ([None]: the body does not
    decode; a member absent from the body leaves the field at its zero
    value). *)
Record Context := {
  Params : gmap string string;
  QueryValues : gmap string string;
  Body : option SensorData
}.

(** [c.Param(key)]: the empty string when the parameter is absent. *)
Definition Param (c : Context) (key : string) : string :=
  default EmptyString (Params c !! key).

(** Struct tags of one field and the value the field holds. *)
Inductive FieldValue :=
| OfString (s : string)
| OfFloat (f : float64)
| OfTime (t : Time).

Record StructField := {
  json_tag : string;
  binding_tag : string;
  field_value : FieldValue
}.

(** The validator's notion of "has a value": the field differs from the
    zero value of its type (Go's [==] against the zero value; for
    [time.Time] all three fields of the struct are compared, so an instant
    of zero in a location other than UTC has a value). *)
Definition hasValue (v : FieldValue) : bool :=
  match v with
  | OfString s => negb (String.eqb s EmptyString)
  | OfFloat f => negb (feq f (S754_zero false))
  | OfTime t => negb (Time_isZero t)
  end.

Definition validateField (f : StructField) : bool :=
  if String.eqb (binding_tag f) "required" then hasValue (field_value f)
  else true.

(** The fields of [models.SensorData] with their tags, as declared. *)
Definition SensorData_fields (d : SensorData) : list StructField :=
  [ {| json_tag := "deviceId"; binding_tag := "required";
       field_value := OfString (DeviceID d) |};
    {| json_tag := "temperature"; binding_tag := "required";
       field_value := OfFloat (Temperature d) |};
    {| json_tag := "humidity"; binding_tag := "required";
       field_value := OfFloat (Humidity d) |};
    {| json_tag := "location"; binding_tag := "required";
       field_value := OfString (Location d) |};
    {| json_tag := "timestampSampled"; binding_tag := "required";
       field_value := OfTime (TimestampSampled d) |} ].

(** [c.ShouldBindJSON(&data)] at type [SensorData]: decode, then validate
    the binding tags.  [None] is a non-nil error. *)
Definition ShouldBindJSON (c : Context) : option SensorData :=
  match Body c with
  | None => None
  | Some d => if forallb validateField (SensorData_fields d) then Some d
              else None
  end.

(** A response written with [c.JSON(status, gin.H{...})]. *)
Inductive ResponseBody :=
| ErrorBody (error : string)
| StoredBody (message : string) (data : SensorData)
| DataBody (data : list (gmap string influxdb2.Value)).

Record Response := { status : Z; body : ResponseBody }.

Definition JSON (code : Z) (b : ResponseBody) : Response :=
  {| status := code; body := b |}.

End gin.

Module http.
Definition StatusOK : Z := 200.
Definition StatusBadRequest : Z := 400.
Definition StatusInternalServerError : Z := 500.
End http.

(* ===================================================================== *)
(** * Package [handlers] *)
(* ===================================================================== *)

Module handlers.
Import models influxdb2 gin.

Definition supportedAggregations : list string := ["sum"; "max"; "mean"; "min"].

(** [type QueryParams struct], bound from the URL query by the [form] tags. *)
Record QueryParams := {
  Start : string;
  Stop : string;
  Aggr : string;
  AggFreq : string
}.

(** [type RecordHandler struct]. *)
Record RecordHandler := {
  InfluxClient : Client;
  Org : string;
  Bucket : string
}.

(** [c.ShouldBindQuery(&params)]: a key present in the URL query overwrites
    the field carrying that [form] tag, an absent key leaves the default.
    All four fields are strings without binding tags, so no error arises;
    the result type keeps the error the handlers test for. *)
Definition ShouldBindQuery (c : Context) (params : QueryParams)
  : option QueryParams :=
  let get key dflt := default dflt (QueryValues c !! key) in
  Some {| Start := get "start" (Start params);
          Stop := get "stop" (Stop params);
          Aggr := get "aggr" (Aggr params);
          AggFreq := get "aggFreq" (AggFreq params) |}.

(** ** Text of the Flux templates

    The raw string literals of the source, line by line: every line starts
    with a newline followed by its tabs. *)
Definition nl : string := String "010" EmptyString.
Definition tab : string := String "009" EmptyString.
Definition dq : string := String "034" EmptyString.

Fixpoint tabs (k : nat) : string :=
  match k with O => EmptyString | S k' => tab +:+ tabs k' end.
Definition ln (k : nat) (text : string) : string := nl +:+ tabs k +:+ text.
Definition quoted (s : string) : string := dq +:+ s +:+ dq.

Definition pivotLine : string :=
  "|> pivot(rowKey: [" +:+ quoted "_time" +:+ "], columnKey: [" +:+
  quoted "_field" +:+ "], valueColumn: " +:+ quoted "_value" +:+ ")".

Definition measurementLine : string :=
  "|> filter(fn: (r) => r._measurement == " +:+ quoted "sensor_data" +:+ ")".

Definition deviceLine : string :=
  "|> filter(fn: (r) => r[" +:+ quoted "device_id" +:+ "] == " +:+
  quoted "%s" +:+ ")".

Definition rawTemplate : string :=
  ln 3 ("from(bucket: " +:+ quoted "%s" +:+ ")") +:+
  ln 3 "|> range(start: %s, stop: %s)" +:+
  ln 3 measurementLine +:+
  ln 3 deviceLine +:+
  ln 3 ("|> pivot(rowKey:[" +:+ quoted "_time" +:+ "], columnKey: [" +:+
        quoted "_field" +:+ "], valueColumn: " +:+ quoted "_value" +:+ ")") +:+
  ln 2 "".

Definition baseTemplate : string :=
  ln 2 ("data = from(bucket: " +:+ quoted "%s" +:+ ")") +:+
  ln 3 "|> range(start: %s, stop: %s)" +:+
  ln 3 measurementLine +:+
  ln 3 deviceLine +:+
  ln 3 ("|> filter(fn: (r) => r._field == " +:+ quoted "temperature" +:+
        " or r._field == " +:+ quoted "humidity" +:+ ")") +:+
  ln 1 "".

Definition windowLines (k : nat) : string :=
  ln k "|> aggregateWindow(every: %s, fn: %s, createEmpty: false)" +:+
  ln k ("|> set(key: " +:+ quoted "_aggregate" +:+ ", value: " +:+
        quoted "%s" +:+ ")") +:+
  ln k ("|> map(fn: (r) => ({ r with _field: " +:+
        quoted "%s_${r._field}" +:+ " }))").

Definition singleTemplate : string :=
  ln 3 "%s_data = data" +:+ windowLines 4 +:+
  ln 3 "%s_data" +:+
  ln 4 pivotLine +:+
  ln 2 "".

Definition stageTemplate : string :=
  ln 4 "%s_data = data" +:+ windowLines 5 +:+
  ln 3 "".

Definition unionTemplate : string :=
  ln 3 "union(tables: [%s])" +:+
  ln 4 pivotLine +:+
  ln 2 "".

(** ** [buildAggregatedQuery] *)

(** The state of [queryBuilder] when the method returns. *)
Definition buildAggregatedQuery_builder
    (h : RecordHandler) (deviceID : string) (params : QueryParams)
  : strings.Builder :=
  let queryBuilder := strings.newBuilder in
  let queryBuilder :=
    strings.WriteString queryBuilder
      (fmt.Sprintf baseTemplate
         [Bucket h; Start params; Stop params; deviceID]) in
  let aggrFunctions := strings.Split (Aggr params) "," in
  if (length aggrFunctions =? 1)%nat then
    let aggFunc := nth 0 aggrFunctions EmptyString in
    strings.WriteString queryBuilder
      (fmt.Sprintf singleTemplate
         [aggFunc; AggFreq params; aggFunc; aggFunc; aggFunc; aggFunc])
  else
    let queryBuilder :=
      fold_left
        (fun qb aggFunc =>
           strings.WriteString qb
             (fmt.Sprintf stageTemplate
                [aggFunc; AggFreq params; aggFunc; aggFunc; aggFunc]))
        aggrFunctions queryBuilder in
    strings.WriteString queryBuilder
      (fmt.Sprintf unionTemplate
         [strings.Join aggrFunctions "_data," +:+ "_data"]).

Definition buildAggregatedQuery
    (h : RecordHandler) (deviceID : string) (params : QueryParams) : string :=
  strings.String_ (buildAggregatedQuery_builder h deviceID params).

(** ** [executeAndProcessQuery] *)

(** [values[key]] on a Go map. *)
Definition index (values : gmap string Value) (key : string) : Value :=
  default VNil (values !! key).

(** The body of the [for result.Next()] loop: one output record per row.
    [IsInArray] is used at strings, where [==] does not panic. *)
Definition processRecord (values : gmap string Value) : gmap string Value :=
  let record : gmap string Value := ∅ in
  let record := <["timestamp" := index values "_time"]> record in
  let record := <["device_id" := index values "device_id"]> record in
  map_fold
    (fun key value (record : gmap string Value) =>
       match helpers.IsInArray (nth 0 (strings.Split key "_") EmptyString)
               supportedAggregations with
       | Some true => <[key := value]> record
       | _ => record
       end)
    record values.

(** The body of the row loop of [GetAllData] and of
    [GetDataFromDeviceByLocation], the two other handlers that fetch
    without aggregation. *)
Definition rawRecord (values : gmap string Value) : gmap string Value :=
  {[ "timestampSampled" := index values "_time";
     "deviceId" := index values "device_id";
     "temperature" := index values "temperature";
     "humidity" := index values "humidity";
     "location" := index values "location" ]}.

Definition executeAndProcessQuery (h : RecordHandler) (query : string)
  : M (list (gmap string Value) + string) :=
  result ← Query (InfluxClient h) (Org h) query;
  match result with
  | inr err => mret (inr err)
  | inl result =>
      let records := map processRecord (rows result) in
      match Err result with
      | Some err => mret (inr err)
      | None => mret (inl records)
      end
  end.

(** ** The handlers *)

(** [PostData]. *)
Definition PostData (h : RecordHandler) (c : Context) : M Response :=
  match ShouldBindJSON c with
  | None => mret (JSON http.StatusBadRequest (ErrorBody "Invalid input"))
  | Some data =>
      if flt (Humidity data) (float64_of_Z 0)
         || flt (float64_of_Z 100) (Humidity data)
      then mret (JSON http.StatusBadRequest
                   (ErrorBody "Humidity Must be in range [0.0, 100.00]"))
      else
        let point :=
          SetTime (TimestampSampled data)
            (AddField "location" (VString (Location data))
               (AddField "humidity" (VFloat (Humidity data))
                  (AddField "temperature" (VFloat (Temperature data))
                     (AddTag "device_id" (DeviceID data)
                        (NewPointWithMeasurement "sensor_data"))))) in
        err ← WritePoint (InfluxClient h) (Org h) (Bucket h) point;
        match err with
        | Some _ => mret (JSON http.StatusInternalServerError
                            (ErrorBody "Failed to store data"))
        | None => mret (JSON http.StatusOK
                          (StoredBody "Data stored successfully" data))
        end
  end.

(** [GetDataFromDeviceByID].  [now] is the formatted result of
    [time.Now().UTC()], read when the defaults are set up. *)
Definition GetDataFromDeviceByID (h : RecordHandler) (now : string)
    (c : Context) : M Response :=
  let deviceId := Param c "deviceId" in
  let params := {| Start := "-30d"; Stop := now; Aggr := ""; AggFreq := "1d" |} in
  match ShouldBindQuery c params with
  | None => mret (JSON http.StatusBadRequest
                    (ErrorBody "Invalid query parameters"))
  | Some params =>
      let query :=
        if String.eqb (Aggr params) "" then
          fmt.Sprintf rawTemplate
            [Bucket h; Start params; Stop params; deviceId]
        else buildAggregatedQuery h deviceId params in
      res ← executeAndProcessQuery h query;
      match res with
      | inr _ => mret (JSON http.StatusInternalServerError
                         (ErrorBody "Failed to retrieve data"))
      | inl records => mret (JSON http.StatusOK (DataBody records))
      end
  end.

(** ** The handlers that fetch without aggregation *)

(** The pivot line as the raw fetches spell it. *)
Definition pivotLineRaw : string :=
  "|> pivot(rowKey:[" +:+ quoted "_time" +:+ "], columnKey: [" +:+
  quoted "_field" +:+ "], valueColumn: " +:+ quoted "_value" +:+ ")".

(** The format of [GetAllData] is the concatenation of a first literal, the
    bucket and a second literal. *)
Definition allDataHead : string := ln 1 "from(bucket: " +:+ dq.
Definition allDataTail : string :=
  dq +:+ ")" +:+
  ln 1 "|> range(start: %s, stop: %s)" +:+
  ln 1 (measurementLine +:+ " ") +:+
  ln 1 ("  " +:+ pivotLineRaw) +:+
  nl.

(** [GetAllData]. *)
Definition GetAllData (h : RecordHandler) (now : string) (c : Context)
  : M Response :=
  let params := {| Start := "-30d"; Stop := now; Aggr := ""; AggFreq := "" |} in
  match ShouldBindQuery c params with
  | None => mret (JSON 400 (ErrorBody "Invalid query parameters"))
  | Some params =>
      let query :=
        fmt.Sprintf (allDataHead +:+ Bucket h +:+ allDataTail)
          [Start params; Stop params] in
      result ← Query (InfluxClient h) (Org h) query;
      match result with
      | inr _ => mret (JSON http.StatusInternalServerError
                         (ErrorBody "Failed to retrieve data"))
      | inl result =>
          let records := map rawRecord (rows result) in
          match Err result with
          | Some _ => mret (JSON http.StatusInternalServerError
                              (ErrorBody "Failed to process data"))
          | None => mret (JSON http.StatusOK (DataBody records))
          end
      end
  end.

(** The format of [GetDataFromDeviceByLocation], built the same way. *)
Definition locationHead : string := ln 2 "from(bucket: " +:+ dq.
Definition locationTail : string :=
  dq +:+ ")" +:+
  ln 2 "|> range(start: %s, stop: %s) " +:+
  ln 2 measurementLine +:+
  nl +:+ "  " +:+ tabs 2 +:+ pivotLineRaw +:+
  ln 2 ("|> filter(fn: (r) => r[" +:+ quoted "location" +:+ "] == " +:+
        quoted "%s" +:+ ")") +:+
  ln 1 "".

(** [GetDataFromDeviceByLocation]. *)
Definition GetDataFromDeviceByLocation (h : RecordHandler) (now : string)
    (c : Context) : M Response :=
  let location := Param c "location" in
  let params := {| Start := "-30d"; Stop := now; Aggr := ""; AggFreq := "" |} in
  match ShouldBindQuery c params with
  | None => mret (JSON 400 (ErrorBody "Invalid query parameters"))
  | Some params =>
      if String.eqb location "" then
        mret (JSON http.StatusBadRequest
                (ErrorBody "location parameter is required"))
      else
        let query :=
          fmt.Sprintf (locationHead +:+ Bucket h +:+ locationTail)
            [Start params; Stop params; location] in
        result ← Query (InfluxClient h) (Org h) query;
        match result with
        | inr _ => mret (JSON http.StatusInternalServerError
                           (ErrorBody "Failed to retrieve data"))
        | inl result =>
            let records := map rawRecord (rows result) in
            match Err result with
            | Some _ => mret (JSON http.StatusInternalServerError
                                (ErrorBody "Failed to process data"))
            | None => mret (JSON http.StatusOK (DataBody records))
            end
        end
  end.

(** ** The routes *)

(** The handler functions a route can name. *)
Inductive HandlerFunc :=
| PostDataHandler
| GetAllDataHandler
| GetDataFromDeviceByIDHandler
| GetDataFromDeviceByLocationHandler.

(** [RegisterRoutes]: the routes in the order they are registered, each a
    method, a path pattern and the handler. *)
Definition RegisterRoutes : list (string * string * HandlerFunc) :=
  [ ("POST", "/records", PostDataHandler);
    ("GET", "/records", GetAllDataHandler);
    ("GET", "/records/devices/:deviceId", GetDataFromDeviceByIDHandler);
    ("GET", "/records/locations/:location",
     GetDataFromDeviceByLocationHandler) ].

(** The method of a registered handler function. *)
Definition call (f : HandlerFunc) (h : RecordHandler) (now : string)
    (c : Context) : M Response :=
  match f with
  | PostDataHandler => PostData h c
  | GetAllDataHandler => GetAllData h now c
  | GetDataFromDeviceByIDHandler => GetDataFromDeviceByID h now c
  | GetDataFromDeviceByLocationHandler => GetDataFromDeviceByLocation h now c
  end.

End handlers.

(* ===================================================================== *)
(** * The logical query plan of the specification

    The specification describes the built query as a plan: a base filter,
    windowed-aggregate stages tagged with a function name, a union of the
    stages and a pivot.  [Plan] writes out the Flux text of each part, so
    that the text assembled by [buildAggregatedQuery] can be compared with
    it part by part. *)
(* ===================================================================== *)

Module Plan.
Import handlers.

(** Concatenation of the pieces of a text. *)
Definition cat (pieces : list string) : string :=
  foldr String.append EmptyString pieces.

(** Scope (bucket, measurement, device), range, and the restriction to the
    temperature and humidity fields, bound to the name [data]. *)
Definition baseFilter (bucket start stop deviceID : string) : string :=
  cat [ ln 2 "data = from(bucket: "; dq; bucket; dq; ")";
        ln 3 "|> range(start: "; start; ", stop: "; stop; ")";
        ln 3 measurementLine;
        ln 3 "|> filter(fn: (r) => r["; quoted "device_id"; "] == "; dq;
        deviceID; dq; ")";
        ln 3 "|> filter(fn: (r) => r._field == "; quoted "temperature";
        " or r._field == "; quoted "humidity"; ")";
        ln 1 "" ].

(** The windowed aggregate of function [fn] over windows of [every], its
    output fields renamed to [fn_<field>]; [k] is the indentation. *)
Definition window (k : nat) (fn every : string) : list string :=
  [ ln k "|> aggregateWindow(every: "; every; ", fn: "; fn;
    ", createEmpty: false)";
    ln k "|> set(key: "; quoted "_aggregate"; ", value: "; dq; fn; dq; ")";
    ln k "|> map(fn: (r) => ({ r with _field: "; dq; fn;
    "_${r._field}"; dq; " }))" ].

(** The name a stage binds its table to. *)
Definition table (fn : string) : string := fn +:+ "_data".

(** One stage of a plan with several functions. *)
Definition stage (every fn : string) : string :=
  cat ([ ln 4 ""; fn; "_data = data" ] ++ window 5 fn every ++ [ ln 3 "" ]).

(** The union of the stage tables, pivoted to one row per [_time]. *)
Definition unionPivot (tables : list string) : string :=
  cat [ ln 3 "union(tables: ["; strings.Join tables ","; "])";
        ln 4 pivotLine; ln 2 "" ].

(** The single stage of a plan with one function, pivoted directly. *)
Definition singleStage (every fn : string) : string :=
  cat ([ ln 3 ""; fn; "_data = data" ] ++ window 4 fn every ++
       [ ln 3 ""; fn; "_data"; ln 4 pivotLine; ln 2 "" ]).

(** [aggr] has no comma. *)
Fixpoint hasComma (aggr : string) : bool :=
  match aggr with
  | EmptyString => false
  | String c rest => Ascii.eqb c "," || hasComma rest
  end.

(** The shaper's filter: the part of the key before its first underscore is
    a member of the supported-aggregation set. *)
Definition kept (key : string) : bool :=
  match helpers.IsInArray (nth 0 (strings.Split key "_") EmptyString)
          supportedAggregations with
  | Some true => true
  | _ => false
  end.

(** The metrics the base filter lets through, and the name of the output
    field of function [fn] for metric [metric]. *)
Definition metrics : list string := ["temperature"; "humidity"].
Definition fieldName (fn metric : string) : string := fn +:+ "_" +:+ metric.

(** The cross-product of the requested functions with the metrics. *)
Definition requestedFields (fns : list string) : list string :=
  flat_map (fun fn => map (fieldName fn) metrics) fns.

(** The columns a pivoted Flux result carries besides the pivoted fields:
    the result name and table index, the group key of the series and the
    row key. *)
Definition storeColumns : list string :=
  ["result"; "table"; "_start"; "_stop"; "_time"; "_measurement"; "device_id"].

End Plan.

(* ===================================================================== *)
(** * What a handler sends, and concrete requests *)
(* ===================================================================== *)

Module Sent.
Import models influxdb2 gin handlers.

(** The parameters [GetDataFromDeviceByID] works with once the URL query is
    bound over the defaults. *)
Definition boundParams (now : string) (c : Context) : QueryParams :=
  {| Start := default "-30d" (QueryValues c !! "start");
     Stop := default now (QueryValues c !! "stop");
     Aggr := default "" (QueryValues c !! "aggr");
     AggFreq := default "1d" (QueryValues c !! "aggFreq") |}.

(** The text of the raw fetch. *)
Definition rawQuery (bucket start stop deviceId : string) : string :=
  Plan.cat [ ln 3 "from(bucket: "; dq; bucket; dq; ")";
             ln 3 "|> range(start: "; start; ", stop: "; stop; ")";
             ln 3 measurementLine;
             ln 3 "|> filter(fn: (r) => r["; quoted "device_id"; "] == "; dq;
             deviceId; dq; ")";
             ln 3 "|> pivot(rowKey:["; quoted "_time"; "], columnKey: [";
             quoted "_field"; "], valueColumn: "; quoted "_value"; ")";
             ln 2 "" ].

(** The query [GetDataFromDeviceByID] hands to the store. *)
Definition deviceQuery (h : RecordHandler) (now : string) (c : Context)
  : string :=
  if String.eqb (Aggr (boundParams now c)) "" then
    rawQuery (Bucket h) (Start (boundParams now c)) (Stop (boundParams now c))
      (Param c "deviceId")
  else buildAggregatedQuery h (Param c "deviceId") (boundParams now c).

(** The point [PostData] writes for a reading. *)
Definition pointOf (d : SensorData) : Point :=
  {| measurement := "sensor_data";
     tags := [("device_id", DeviceID d)];
     fields := [ ("temperature", VFloat (Temperature d));
                 ("humidity", VFloat (Humidity d));
                 ("location", VString (Location d)) ];
     time := TimestampSampled d |}.

End Sent.

Module Scenario.
Import models influxdb2 gin handlers.

Definition f18_5 : float64 := binary_normalize prec emax 37 (-1) false.
Definition f55 : float64 := float64_of_Z 55.
Definition f150 : float64 := float64_of_Z 150.

(** 2024-02-01T00:00:00Z and 2024-02-02T00:00:00Z. *)
Definition feb1 : Time := {| wall := 0; ext := 63842342400; loc := None |}.
Definition feb2 : Time := {| wall := 0; ext := 63842428800; loc := None |}.

Definition reading : SensorData :=
  {| DeviceID := "sensor_123"; Temperature := f18_5; Humidity := f55;
     Location := "Room 1"; TimestampSampled := feb1 |}.

Definition withHumidity (x : float64) : SensorData :=
  {| DeviceID := "sensor_123"; Temperature := f18_5; Humidity := x;
     Location := "Room 1"; TimestampSampled := feb1 |}.

Definition withTemperature (x : float64) : SensorData :=
  {| DeviceID := "sensor_123"; Temperature := x; Humidity := f55;
     Location := "Room 1"; TimestampSampled := feb1 |}.

(** The row of a pivoted raw fetch for one stored point: the columns of
    [Plan.storeColumns], the tags and one column per field. *)
Definition pivotRow (p : Point) : gmap string Value :=
  list_to_map
    ([ ("result", VString "_result"); ("table", VInt 0);
       ("_start", VTime feb1); ("_stop", VTime feb2);
       ("_time", VTime (time p));
       ("_measurement", VString (measurement p)) ]
     ++ map (fun kv => (fst kv, VString (snd kv))) (tags p)
     ++ fields p).

(** The row of the pivoted union of the [mean] and [max] stages over the one
    window holding [reading]. *)
Definition meanMaxRow : gmap string Value :=
  list_to_map
    [ ("result", VString "_result"); ("table", VInt 0);
      ("_start", VTime feb1); ("_stop", VTime feb2);
      ("_time", VTime feb2); ("_measurement", VString "sensor_data");
      ("device_id", VString "sensor_123");
      ("mean_temperature", VFloat f18_5); ("mean_humidity", VFloat f55);
      ("max_temperature", VFloat f18_5); ("max_humidity", VFloat f55) ].

Definition written (log : list Call) : list Point :=
  flat_map (fun c => match c with
                     | CallWrite _ _ p => [p]
                     | CallQuery _ _ => []
                     end) log.

(** A store that accepts every write and answers a query with the pivoted
    rows of the points written so far. *)
Definition memoryClient : Client :=
  {| write_answer := fun _ _ _ _ => None;
     query_answer := fun log _ _ =>
       inl {| rows := map pivotRow (written log); Err := None |} |}.

Definition h : RecordHandler :=
  {| InfluxClient := memoryClient; Org := "brewery"; Bucket := "sensors" |}.

Definition now : string := "2024-02-03T08:00:00Z".

(** [POST /records] with the given reading as body. *)
Definition post (d : SensorData) : Context :=
  {| Params := ∅; QueryValues := ∅; Body := Some d |}.

(** [GET /records/devices/sensor_123?start=2024-02-01T00:00:00Z&stop=2024-02-02T00:00:00Z]. *)
Definition getDevice : Context :=
  {| Params := {[ "deviceId" := "sensor_123" ]};
     QueryValues := {[ "start" := "2024-02-01T00:00:00Z";
                       "stop" := "2024-02-02T00:00:00Z" ]};
     Body := None |}.

(** The same request with [aggr] added. *)
Definition getDeviceAggr (aggr : string) : Context :=
  {| Params := {[ "deviceId" := "sensor_123" ]};
     QueryValues := {[ "start" := "2024-02-01T00:00:00Z";
                       "stop" := "2024-02-02T00:00:00Z";
                       "aggr" := aggr ]};
     Body := None |}.

(** The handler reached without a [deviceId] path parameter. *)
Definition getNoDevice : Context :=
  {| Params := ∅; QueryValues := ∅; Body := None |}.

End Scenario.

(* ===================================================================== *)
(** * The raw fetches: the texts sent *)
(* ===================================================================== *)

Module Raw.
Import models influxdb2 gin handlers.

(** The string has no [%], so [fmt.Sprintf] copies it as it is. *)
Fixpoint noPercent (s : string) : bool :=
  match s with
  | EmptyString => true
  | String c rest => negb (Ascii.eqb c "%") && noPercent rest
  end.

(** The range the raw handlers work with once the URL query is bound. *)
Definition startOf (c : Context) : string :=
  default "-30d" (QueryValues c !! "start").
Definition stopOf (now : string) (c : Context) : string :=
  default now (QueryValues c !! "stop").

(** The query [GetAllData] hands to the store. *)
Definition allDataSent (h : RecordHandler) (now : string) (c : Context)
  : string :=
  fmt.Sprintf (allDataHead +:+ Bucket h +:+ allDataTail)
    [startOf c; stopOf now c].

(** The query [GetDataFromDeviceByLocation] hands to the store. *)
Definition locationSent (h : RecordHandler) (now : string) (c : Context)
  : string :=
  fmt.Sprintf (locationHead +:+ Bucket h +:+ locationTail)
    [startOf c; stopOf now c; Param c "location"].

(** The text of the fetch of all data. *)
Definition allDataQuery (bucket start stop : string) : string :=
  Plan.cat [ ln 1 "from(bucket: "; dq; bucket; dq; ")";
             ln 1 "|> range(start: "; start; ", stop: "; stop; ")";
             ln 1 measurementLine; " ";
             ln 1 "  "; pivotLineRaw;
             nl ].

(** The text of the fetch for a location: the location is filtered after
    the pivot. *)
Definition locationQuery (bucket start stop location : string) : string :=
  Plan.cat [ ln 2 "from(bucket: "; dq; bucket; dq; ")";
             ln 2 "|> range(start: "; start; ", stop: "; stop; ") ";
             ln 2 measurementLine;
             nl; "  "; tabs 2; pivotLineRaw;
             ln 2 "|> filter(fn: (r) => r["; quoted "location"; "] == "; dq;
             location; dq; ")";
             ln 1 "" ].

(** The keys of a record of the raw handlers. *)
Definition rawKeys : list string :=
  ["timestampSampled"; "deviceId"; "temperature"; "humidity"; "location"].

(** [strings.HasPrefix]. *)
Fixpoint HasPrefix (s prefix : string) {struct prefix} : bool :=
  match prefix, s with
  | EmptyString, _ => true
  | String p prefix', String c s' => Ascii.eqb c p && HasPrefix s' prefix'
  | String _ _, EmptyString => false
  end.

(** The test left commented out in the shaper's loop: the key starts with
    [max_], [min_], [mean_] or [sum_]. *)
Definition hasAggregatePrefix (key : string) : bool :=
  HasPrefix key "max_" || HasPrefix key "min_" || HasPrefix key "mean_"
  || HasPrefix key "sum_".

(** [GET /records/locations/<location>] with the given URL query. *)
Definition getLocation (location : string) (query : gmap string string)
  : Context :=
  {| Params := {[ "location" := location ]}; QueryValues := query;
     Body := None |}.

End Raw.

(* ===================================================================== *)
(** * Package [helpers], continued: the dummy data *)
(* ===================================================================== *)

Module generator.
Import models influxdb2.

(** Go's [int] on the 64-bit platforms: the result of an operation wraps
    around. *)
Definition wrap64 (z : Z) : Z := (z + 2 ^ 63) mod 2 ^ 64 - 2 ^ 63.

(** [strconv.Itoa], which is also how the verb [%v] prints an [int]. *)
Definition Itoa (i : Z) : string := NilZero.string_of_int (Z.to_int i).

(** Reading a decimal numeral back ([strconv.Atoi] on digits with an
    optional sign). *)
Definition Atoi (s : string) : option Z :=
  option_map Z.of_int (NilZero.int_of_string s).

(** [fmt.Sprintf] restricted to the verb [%v], the operands given in their
    default format. *)
Fixpoint Sprintf (format : string) (args : list string) : string :=
  match format with
  | EmptyString => EmptyString
  | String "%" (String "v" rest) =>
      match args with
      | a :: args' => a +:+ Sprintf rest args'
      | [] => "%!v(MISSING)" +:+ Sprintf rest []
      end
  | String c rest => String c (Sprintf rest args)
  end.

(** [fixArgument]. *)
Definition fixArgument (arg : Z) : string :=
  if wrap64 (arg - 10) <? 0 then Sprintf "0%v" [Itoa arg]
  else Itoa arg.

(** The text has two characters and reads back as [arg]. *)
Definition twoDigits (arg : Z) : bool :=
  (String.length (fixArgument arg) =? 2)%nat
  && match Atoi (fixArgument arg) with
     | Some z => z =? arg
     | None => false
     end.

(** The values the variable of [for i := init; cond(i); i = step(i)] takes,
    for a loop of at most [fuel] rounds. *)
Fixpoint loop (fuel : nat) (i : Z) (cond : Z -> bool) (step : Z -> Z)
  : list Z :=
  match fuel with
  | O => []
  | S fuel' => if cond i then i :: loop fuel' (step i) cond step else []
  end.

(** The slice [data] of [GenerateDummyData] when the three loops are done.
    [rnd k] is the result of the [k]-th call of [rand.Float64]; the second
    component of the state counts the calls. *)
Definition dummyData (rnd : nat -> float64) : list (gmap string Value) :=
  fst
    (fold_left
       (fun st d =>
          fold_left
            (fun st h =>
               fold_left
                 (fun (st : list (gmap string Value) * nat) m =>
                    let '(data, n) := st in
                    let day := fixArgument d in
                    let hour := fixArgument h in
                    let minute := fixArgument m in
                    let record : gmap string Value :=
                      {[ "timestampSampled" :=
                           VString (Sprintf "2024-02-%vT%v:%v:00Z"
                                      [day; hour; minute]);
                         "deviceId" := VString "sensor_123";
                         "humidity" :=
                           VFloat (SFadd prec emax (float64_of_Z 0)
                                     (SFmul prec emax (rnd n)
                                        (float64_of_Z 100)));
                         "temperature" :=
                           VFloat (SFadd prec emax (float64_of_Z 14)
                                     (SFmul prec emax (rnd (S n))
                                        (float64_of_Z 7)));
                         "location" := VString "Room 1" ]} in
                    (data ++ [record], S (S n)))
                 (loop 60 0 (fun m => m <=? 59) (fun m => m + 15)) st)
            (loop 60 0 (fun h => h <? 24) (fun h => h + 1)) st)
       (loop 60 1 (fun d => d <? 10) (fun d => d + 1))
       ([], 0%nat)).

(** What [http.Post] comes back with: a response and no error; an error
    and no response; an error together with a response (a redirect that is
    not followed). *)
Inductive PostResult := Responded | Failed | FailedWithResponse.

(** How [GenerateDummyData] ends: it returns, or it panics on a nil
    response. *)
Inductive Outcome := Returned | Panicked.

(** The forwarding loop.  [post sent url record] is the result of posting
    [record] after the records [sent].  When the post fails without a
    response, [defer resp.Body.Close()] reads a field of the nil [resp]. *)
Fixpoint forward (post : list (gmap string Value) -> string ->
                         gmap string Value -> PostResult)
    (url : string) (data sent : list (gmap string Value))
  : Outcome * list (gmap string Value) :=
  match data with
  | [] => (Returned, sent)
  | record :: rest =>
      match post sent url record with
      | Failed => (Panicked, sent ++ [record])
      | Responded | FailedWithResponse =>
          forward post url rest (sent ++ [record])
      end
  end.

(** [GenerateDummyData]: the outcome and the records posted, in order. *)
Definition GenerateDummyData
    (rnd : nat -> float64)
    (post : list (gmap string Value) -> string -> gmap string Value ->
            PostResult)
    (url : string) : Outcome * list (gmap string Value) :=
  forward post url (dummyData rnd) [].

(** The text of a record's timestamp. *)
Definition timestampOf (record : gmap string Value) : string :=
  match record !! "timestampSampled" with
  | Some (VString s) => s
  | _ => EmptyString
  end.

(** The values of (d, h, m) the three loops run through, in order. *)
Definition slots : list (Z * Z * Z) :=
  flat_map
    (fun d =>
       flat_map
         (fun h =>
            map (fun m => (d, h, m))
              (loop 60 0 (fun m => m <=? 59) (fun m => m + 15)))
         (loop 60 0 (fun h => h <? 24) (fun h => h + 1)))
    (loop 60 1 (fun d => d <? 10) (fun d => d + 1)).

(** The timestamp written for day [d], hour [h] and minute [m]. *)
Definition timestampText (slot : Z * Z * Z) : string :=
  let '(d, h, m) := slot in
  Sprintf "2024-02-%vT%v:%v:00Z" [fixArgument d; fixArgument h; fixArgument m].

(** A record with the given timestamp and numbers. *)
Definition recordOf (ts : string) (hum temp : float64) : gmap string Value :=
  {[ "timestampSampled" := VString ts;
     "deviceId" := VString "sensor_123";
     "humidity" := VFloat hum;
     "temperature" := VFloat temp;
     "location" := VString "Room 1" ]}.

(** The minute of the month a slot stands for, and the bounds of a slot. *)
Definition slotKey (slot : Z * Z * Z) : Z :=
  let '(d, h, m) := slot in (d * 24 + h) * 60 + m.
Definition inRange (slot : Z * Z * Z) : bool :=
  let '(d, h, m) := slot in
  (0 <=? d) && (d <=? 99) && (0 <=? h) && (h <=? 99) && (0 <=? m) && (m <=? 99).

(** The record is one of device [sensor_123] in [Room 1], with a timestamp
    of 20 characters and two numbers. *)
Definition wellFormed (record : gmap string Value) : bool :=
  (String.length (timestampOf record) =? 20)%nat
  && match record !! "deviceId" with
     | Some (VString s) => String.eqb s "sensor_123"
     | _ => false
     end
  && match record !! "location" with
     | Some (VString s) => String.eqb s "Room 1"
     | _ => false
     end
  && match record !! "humidity", record !! "temperature" with
     | Some (VFloat _), Some (VFloat _) => true
     | _, _ => false
     end.

End generator.

(* ===================================================================== *)
(** * Stores and requests for the cases of the handlers *)
(* ===================================================================== *)

Module Cases.
Import models influxdb2 gin handlers.

(** A store that answers every query with the given rows. *)
Definition answering (rs : list (gmap string Value)) : Client :=
  {| write_answer := fun _ _ _ _ => None;
     query_answer := fun _ _ _ => inl {| rows := rs; Err := None |} |}.

(** A store whose result stream breaks after the given rows. *)
Definition brokenStream (rs : list (gmap string Value)) : Client :=
  {| write_answer := fun _ _ _ _ => None;
     query_answer := fun _ _ _ =>
       inl {| rows := rs; Err := Some "unexpected EOF" |} |}.

(** A store that cannot be reached. *)
Definition unreachable : Client :=
  {| write_answer := fun _ _ _ _ => Some "connection refused";
     query_answer := fun _ _ _ => inr "connection refused" |}.

Definition handlerOf (cl : Client) : RecordHandler :=
  {| InfluxClient := cl; Org := "brewery"; Bucket := "sensors" |}.

(** A row that has no [temperature] and no [location] column. *)
Definition partialRow : gmap string Value :=
  list_to_map [ ("_time", VTime Scenario.feb1);
                ("device_id", VString "sensor_123");
                ("humidity", VFloat Scenario.f55) ].

(** A random source that always yields 0, and the two extreme servers. *)
Definition zeros : nat -> float64 := fun _ => S754_zero false.
Definition responding
  : list (gmap string Value) -> string -> gmap string Value ->
    generator.PostResult :=
  fun _ _ _ => generator.Responded.
Definition refusing
  : list (gmap string Value) -> string -> gmap string Value ->
    generator.PostResult :=
  fun _ _ _ => generator.Failed.

(** January 1, year 1, 01:00:00 at the offset +01:00: the instant of the
    zero [time.Time], in a location that is not UTC. *)
Definition yearOneAtOffset : Time :=
  {| wall := 0; ext := 0; loc := Some "+01:00" |}.

(** The reading of the scenario, sampled at the given time. *)
Definition sampledAt (t : Time) : SensorData :=
  {| DeviceID := "sensor_123"; Temperature := Scenario.f18_5;
     Humidity := Scenario.f55; Location := "Room 1";
     TimestampSampled := t |}.

(** A request without path parameters, with the given URL query. *)
Definition request (query : gmap string string) : Context :=
  {| Params := ∅; QueryValues := query; Body := None |}.

End Cases.

(* ===================================================================== *)
(** * The gin engine in front of the handlers *)
(* ===================================================================== *)

Module engine.
Import models influxdb2 gin handlers.

(** A pattern segment [:name] is a path parameter. *)
Definition paramName (segment : string) : option string :=
  match segment with
  | String ":" name => Some name
  | _ => None
  end.

(** gin matches the request path against a pattern of these routes segment
    by segment (the segments are what lies between the slashes).  A
    parameter segment matches one segment of the path that is not empty and
    binds it; any other segment of the pattern matches itself only. *)
Fixpoint matchSegments (pattern path : list string)
    (params : gmap string string) : option (gmap string string) :=
  match pattern, path with
  | [], [] => Some params
  | p :: pattern', s :: path' =>
      match paramName p with
      | Some name =>
          if String.eqb s "" then None
          else matchSegments pattern' path' (<[name := s]> params)
      | None =>
          if String.eqb p s then matchSegments pattern' path' params
          else None
      end
  | _, _ => None
  end.

Definition matchPattern (pattern path : string)
  : option (gmap string string) :=
  matchSegments (strings.Split pattern "/") (strings.Split path "/") ∅.

(** The route of a request, with the path parameters it binds. *)
Fixpoint findRoute (routes : list (string * string * HandlerFunc))
    (method path : string) : option (HandlerFunc * gmap string string) :=
  match routes with
  | [] => None
  | (m, pattern, f) :: rest =>
      if String.eqb m method then
        match matchPattern pattern path with
        | Some params => Some (f, params)
        | None => findRoute rest method path
        end
      else findRoute rest method path
  end.

(** [engine.ServeHTTP]: a request with a route is handed to the route's
    handler, with the bound path parameters in the context; [None] stands
    for a request without a route, which gin answers itself (not found, or a
    redirect) without calling a handler. *)
Definition ServeHTTP (h : RecordHandler) (now : string)
    (method path : string) (query : gmap string string)
    (payload : option SensorData) : M (option Response) :=
  match findRoute RegisterRoutes method path with
  | None => mret None
  | Some (f, params) =>
      r ← call f h now
            {| Params := params; QueryValues := query; Body := payload |};
      mret (Some r)
  end.

(** No slash occurs in the string. *)
Fixpoint hasSlash (s : string) : bool :=
  match s with
  | EmptyString => false
  | String c rest => Ascii.eqb c "/" || hasSlash rest
  end.

End engine.

(* ===================================================================== *)
(** * Properties of the helpers *)
(* ===================================================================== *)

Section IsInArrayFacts.
Context {T : Type} `{helpers.Comparable T}.

(** The loop returns false exactly when every comparison gives false. *)
Lemma IsInArray_false_iff (x : T) (xs : list T) :
  helpers.IsInArray x xs = Some false
  <-> Forall (fun el => helpers.equal x el = Some false) xs.
Proof.
  induction xs as [|el rest IH]; cbn [helpers.IsInArray].
  - split; [constructor | reflexivity].
  - destruct (helpers.equal x el) as [[|]|] eqn:E.
    + split; [discriminate | intros Hall; inversion Hall; congruence].
    + rewrite IH. split; [now constructor | intros Hall; now inversion Hall].
    + split; [discriminate | intros Hall; inversion Hall; congruence].
Qed.

(** It returns true exactly when a comparison gives true after comparisons
    that all gave false. *)
Lemma IsInArray_found_iff (x : T) (xs : list T) :
  helpers.IsInArray x xs = Some true
  <-> exists before el after,
        xs = before ++ el :: after
        /\ helpers.equal x el = Some true
        /\ Forall (fun e => helpers.equal x e = Some false) before.
Proof.
  induction xs as [|e rest IH]; cbn [helpers.IsInArray].
  - split; [discriminate |].
    intros (before & el & after & Hxs & _). now destruct before.
  - destruct (helpers.equal x e) as [[|]|] eqn:E.
    + split; [intros _ | reflexivity].
      exists [], e, rest. split; [reflexivity |]. split; [exact E | constructor].
    + rewrite IH. split.
      * intros (before & el & after & -> & Hel & Hall).
        exists (e :: before), el, after.
        split; [reflexivity |]. split; [exact Hel | now constructor].
      * intros (before & el & after & Hxs & Hel & Hall).
        destruct before as [|e' before]; cbn in Hxs.
        -- injection Hxs as -> ->. congruence.
        -- injection Hxs as -> ->. inversion Hall; subst.
           exists before, el, after. split; [reflexivity |]. now split.
    + split; [discriminate |].
      intros (before & el & after & Hxs & Hel & Hall).
      destruct before as [|e' before]; cbn in Hxs.
      * injection Hxs as -> ->. congruence.
      * injection Hxs as -> ->. inversion Hall; subst. congruence.
Qed.

End IsInArrayFacts.

(** On strings [==] is identity and does not panic. *)
Lemma IsInArray_true_iff (x : string) (xs : list string) :
  helpers.IsInArray x xs = Some true <-> In x xs.
Proof.
  induction xs as [|el rest IH]; cbn [helpers.IsInArray In].
  - split; [discriminate | tauto].
  - unfold helpers.equal, helpers.string_comparable.
    destruct (String.eqb_spec x el) as [->|Hne].
    + split; [intros _; now left | reflexivity].
    + rewrite IH. split; [tauto | intros [E|Hin]; [congruence | exact Hin]].
Qed.

Lemma IsInArray_string_false_iff (x : string) (xs : list string) :
  helpers.IsInArray x xs = Some false <-> ~ In x xs.
Proof.
  induction xs as [|el rest IH]; cbn [helpers.IsInArray In].
  - split; [tauto | reflexivity].
  - unfold helpers.equal, helpers.string_comparable.
    destruct (String.eqb_spec x el) as [->|Hne].
    + split; [discriminate | tauto].
    + rewrite IH. split; [intros Hn [E|Hin]; [congruence | tauto] | tauto].
Qed.

Lemma kept_true_iff (key : string) :
  Plan.kept key = true
  <-> helpers.IsInArray (nth 0 (strings.Split key "_") EmptyString)
        handlers.supportedAggregations = Some true.
Proof.
  unfold Plan.kept.
  destruct (helpers.IsInArray _ _) as [[|]|];
    split; (reflexivity || discriminate).
Qed.

(** C10, as the code has it.  [IsInArray x xs] returns true exactly when
    some element of [xs] is [==] to [x] in Go's sense and every comparison
    before it gave false, and false exactly when every comparison gives
    false, as on the empty list; on strings, where [==] is identity and does
    not panic, it returns true exactly when [x] occurs in [xs] and false
    otherwise. *)
Theorem IsInArray_spec {T : Type} `{helpers.Comparable T}
    (x : T) (xs : list T) :
  helpers.IsInArray x [] = Some false
  /\ (helpers.IsInArray x xs = Some true
      <-> exists before el after,
            xs = before ++ el :: after
            /\ helpers.equal x el = Some true
            /\ Forall (fun e => helpers.equal x e = Some false) before)
  /\ (helpers.IsInArray x xs = Some false
      <-> Forall (fun e => helpers.equal x e = Some false) xs)
  /\ forall (s : string) (l : list string),
       (helpers.IsInArray s l = Some true <-> In s l)
       /\ (helpers.IsInArray s l = Some false <-> ~ In s l).
Proof.
  split; [reflexivity |]. split; [apply IsInArray_found_iff |].
  split; [apply IsInArray_false_iff |].
  intros s l. split; [apply IsInArray_true_iff |].
  apply IsInArray_string_false_iff.
Qed.

(** C10, as stated, fails at [float64]: NaN occurs in the list but is not
    found, and 0.0 is found in a list that holds only -0.0. *)
Lemma IsInArray_float64_not_membership :
  In S754_nan [S754_nan]
  /\ helpers.IsInArray S754_nan [S754_nan] = Some false
  /\ ~ In (S754_zero false) [S754_zero true]
  /\ helpers.IsInArray (S754_zero false) [S754_zero true] = Some true.
Proof.
  split; [now left |]. split; [reflexivity |]. split; [| reflexivity].
  intros [E|[]]. discriminate E.
Qed.

(** At an interface type a comparison can panic: two slices. *)
Example IsInArray_interface_panics :
  helpers.IsInArray (helpers.AnyInts [1]) [helpers.AnyString "a";
                                            helpers.AnyInts [1]] = None.
Proof. reflexivity. Qed.

Section StringFacts.

Lemma append_assoc (a b c : string) : (a +:+ b) +:+ c = a +:+ (b +:+ c).
Proof. induction a as [|ch a IH]; simpl; [reflexivity | now rewrite IH]. Qed.

Lemma append_nil_r (a : string) : a +:+ "" = a.
Proof. induction a as [|ch a IH]; simpl; [reflexivity | now rewrite IH]. Qed.

Lemma Split_nonempty (s : string) (sep : ascii) : strings.Split s sep <> [].
Proof.
  destruct s as [|c s]; simpl; [discriminate |].
  destruct (Ascii.eqb c sep); [discriminate |].
  destruct (strings.Split s sep); discriminate.
Qed.

Lemma Split_length_pos (s : string) (sep : ascii) :
  (1 <= length (strings.Split s sep))%nat.
Proof.
  pose proof (Split_nonempty s sep) as Hne.
  destruct (strings.Split s sep); [congruence | simpl; lia].
Qed.

(** Without a comma the string is its own single token. *)
Lemma Split_no_comma (s : string) :
  Plan.hasComma s = false -> strings.Split s "," = [s].
Proof.
  induction s as [|c s IH]; simpl; [reflexivity |].
  destruct (Ascii.eqb c ","); simpl; [discriminate |].
  intros Hs. now rewrite (IH Hs).
Qed.

(** With a comma there are at least two tokens. *)
Lemma Split_comma (s : string) :
  Plan.hasComma s = true -> (2 <= length (strings.Split s ","))%nat.
Proof.
  induction s as [|c s IH]; simpl; [discriminate |].
  destruct (Ascii.eqb c ","); simpl.
  - intros _. pose proof (Split_length_pos s ","). lia.
  - intros Hs. specialize (IH Hs).
    destruct (strings.Split s ","); simpl in *; lia.
Qed.

Lemma Split_length_one_iff (s : string) :
  length (strings.Split s ",") = 1%nat <-> Plan.hasComma s = false.
Proof.
  split.
  - intros Hlen. destruct (Plan.hasComma s) eqn:Hc; [| reflexivity].
    apply Split_comma in Hc. lia.
  - intros Hc. now rewrite Split_no_comma.
Qed.

(** A trailing separator yields a final empty token. *)
Lemma Split_trailing (s : string) (sep : ascii) :
  strings.Split (s +:+ String sep "") sep = strings.Split s sep ++ [""].
Proof.
  induction s as [|c s IH]; simpl.
  - now rewrite Ascii.eqb_refl.
  - destruct (Ascii.eqb c sep); [now rewrite IH |].
    rewrite IH. pose proof (Split_nonempty s sep) as Hne.
    destruct (strings.Split s sep); [congruence | reflexivity].
Qed.

(** Joining with ["_data,"] and appending ["_data"] names every table. *)
Lemma Join_tables (fs : list string) :
  fs <> [] ->
  strings.Join fs "_data," +:+ "_data" = strings.Join (map Plan.table fs) ",".
Proof.
  induction fs as [|f rest IH]; [congruence |]. intros _.
  destruct rest as [|g rest]; [reflexivity |].
  change (strings.Join (f :: g :: rest) "_data,")
    with (f +:+ "_data," +:+ strings.Join (g :: rest) "_data,").
  change (strings.Join (map Plan.table (f :: g :: rest)) ",")
    with (Plan.table f +:+ "," +:+ strings.Join (map Plan.table (g :: rest)) ",").
  rewrite <- IH by discriminate. unfold Plan.table.
  rewrite !append_assoc. reflexivity.
Qed.

End StringFacts.

(* ===================================================================== *)
(** * The query builder *)
(* ===================================================================== *)

Section QueryBuilder.
Import handlers.

(** Each [Sprintf] of the builder yields the corresponding plan text. *)
Lemma Sprintf_base (bucket start stop deviceID : string) :
  fmt.Sprintf baseTemplate [bucket; start; stop; deviceID]
  = Plan.baseFilter bucket start stop deviceID.
Proof. reflexivity. Qed.

Lemma Sprintf_stage (every fn : string) :
  fmt.Sprintf stageTemplate [fn; every; fn; fn; fn] = Plan.stage every fn.
Proof. reflexivity. Qed.

Lemma Sprintf_single (every fn : string) :
  fmt.Sprintf singleTemplate [fn; every; fn; fn; fn; fn]
  = Plan.singleStage every fn.
Proof. reflexivity. Qed.

Lemma Sprintf_union (arg : string) :
  fmt.Sprintf unionTemplate [arg]
  = Plan.cat [ ln 3 "union(tables: ["; arg; "])"; ln 4 pivotLine; ln 2 "" ].
Proof. reflexivity. Qed.

(** The [for ... range aggrFunctions] loop appends one stage per token. *)
Lemma stage_loop (every : string) (fs : list string) (qb : strings.Builder) :
  fold_left
    (fun qb aggFunc =>
       strings.WriteString qb
         (fmt.Sprintf stageTemplate [aggFunc; every; aggFunc; aggFunc; aggFunc]))
    fs qb
  = qb ++ map (Plan.stage every) fs.
Proof.
  revert qb. induction fs as [|f fs IH]; intros qb; simpl.
  - now rewrite app_nil_r.
  - rewrite IH. unfold strings.WriteString.
    rewrite <- app_assoc. reflexivity.
Qed.

Lemma builder_single (h : RecordHandler) (deviceID : string) (p : QueryParams) :
  Plan.hasComma (Aggr p) = false ->
  buildAggregatedQuery_builder h deviceID p
  = [ Plan.baseFilter (Bucket h) (Start p) (Stop p) deviceID;
      Plan.singleStage (AggFreq p) (Aggr p) ].
Proof.
  intros Hc. unfold buildAggregatedQuery_builder.
  rewrite (Split_no_comma _ Hc). reflexivity.
Qed.

Lemma builder_multi (h : RecordHandler) (deviceID : string) (p : QueryParams) :
  (1 < length (strings.Split (Aggr p) ","))%nat ->
  buildAggregatedQuery_builder h deviceID p
  = Plan.baseFilter (Bucket h) (Start p) (Stop p) deviceID
    :: map (Plan.stage (AggFreq p)) (strings.Split (Aggr p) ",")
    ++ [Plan.unionPivot (map Plan.table (strings.Split (Aggr p) ","))].
Proof.
  intros Hlen. unfold buildAggregatedQuery_builder.
  destruct (Nat.eqb_spec (length (strings.Split (Aggr p) ",")) 1) as [E|_];
    [lia |].
  rewrite stage_loop, Sprintf_union, Sprintf_base.
  rewrite Join_tables by apply Split_nonempty.
  reflexivity.
Qed.

(** The texts of the parts start differently, so a chunk of the builder is
    the base filter only where the base filter was written. *)
Lemma stage_not_base every fn bucket start stop deviceID :
  Plan.stage every fn <> Plan.baseFilter bucket start stop deviceID.
Proof. discriminate. Qed.

Lemma unionPivot_not_base tables bucket start stop deviceID :
  Plan.unionPivot tables <> Plan.baseFilter bucket start stop deviceID.
Proof. discriminate. Qed.

Lemma count_base_in_stages every fs base :
  (forall fn, Plan.stage every fn <> base) ->
  count_occ string_dec (map (Plan.stage every) fs) base = 0%nat.
Proof.
  intros Hne. induction fs as [|f fs IH]; [reflexivity |].
  cbn [map]. rewrite count_occ_cons_neq by apply Hne. exact IH.
Qed.

End QueryBuilder.

Section QueryBuilderClaims.
Import handlers.

Lemma cat_app (a b : list string) :
  Plan.cat (a ++ b) = Plan.cat a +:+ Plan.cat b.
Proof.
  induction a as [|x a IH]; [reflexivity |].
  cbn [app]. unfold Plan.cat in *. cbn [foldr].
  rewrite IH, append_assoc. reflexivity.
Qed.

Lemma String_is_cat (b : strings.Builder) : strings.String_ b = Plan.cat b.
Proof. reflexivity. Qed.

(** C5. With more than one function, the builder holds the base filter
    exactly once and first, then one stage per requested function in the
    order requested, each renaming its fields with that function's prefix,
    then the union of all the stage tables pivoted to one row per
    timestamp; the query is the concatenation of these parts. *)
Theorem multi_aggregation_plan
    (h : RecordHandler) (deviceID : string) (p : QueryParams) :
  (1 < length (strings.Split (Aggr p) ","))%nat ->
  buildAggregatedQuery_builder h deviceID p
  = Plan.baseFilter (Bucket h) (Start p) (Stop p) deviceID
    :: map (Plan.stage (AggFreq p)) (strings.Split (Aggr p) ",")
    ++ [Plan.unionPivot (map Plan.table (strings.Split (Aggr p) ","))]
  /\ buildAggregatedQuery h deviceID p
     = Plan.baseFilter (Bucket h) (Start p) (Stop p) deviceID
       +:+ Plan.cat (map (Plan.stage (AggFreq p)) (strings.Split (Aggr p) ","))
       +:+ Plan.unionPivot (map Plan.table (strings.Split (Aggr p) ","))
  /\ count_occ string_dec (buildAggregatedQuery_builder h deviceID p)
       (Plan.baseFilter (Bucket h) (Start p) (Stop p) deviceID) = 1%nat.
Proof.
  intros Hlen. pose proof (builder_multi h deviceID p Hlen) as Hb.
  split; [exact Hb |]. split.
  - unfold buildAggregatedQuery. rewrite String_is_cat, Hb.
    change (Plan.cat (?x :: ?l)) with (x +:+ Plan.cat l).
    rewrite cat_app. f_equal. f_equal.
    change (Plan.cat [?u]) with (u +:+ ""). apply append_nil_r.
  - rewrite Hb. rewrite count_occ_cons_eq by reflexivity.
    rewrite count_occ_app, count_base_in_stages
      by (intros fn; apply stage_not_base).
    rewrite count_occ_cons_neq by apply unionPivot_not_base.
    reflexivity.
Qed.

(** C6. The plan depends on nothing but the bucket, the device id and the
    four query parameters: equal inputs give the same chunks in the same
    order, hence the same query text. *)
Theorem buildAggregatedQuery_deterministic
    (h1 h2 : RecordHandler) (d1 d2 : string) (p1 p2 : QueryParams) :
  Bucket h1 = Bucket h2 -> d1 = d2 ->
  Start p1 = Start p2 -> Stop p1 = Stop p2 ->
  Aggr p1 = Aggr p2 -> AggFreq p1 = AggFreq p2 ->
  buildAggregatedQuery_builder h1 d1 p1 = buildAggregatedQuery_builder h2 d2 p2
  /\ buildAggregatedQuery h1 d1 p1 = buildAggregatedQuery h2 d2 p2.
Proof.
  intros Hb Hd Hs Ht Ha Hf.
  assert (buildAggregatedQuery_builder h1 d1 p1
          = buildAggregatedQuery_builder h2 d2 p2) as E.
  { unfold buildAggregatedQuery_builder. rewrite Hb, Hd, Hs, Ht, Ha, Hf.
    reflexivity. }
  split; [exact E |]. unfold buildAggregatedQuery. now rewrite E.
Qed.

(** C9. The single-aggregation shape is built exactly when [aggr] has no
    comma; an [aggr] ending in a comma takes the branch for several
    functions, and its plan has a stage whose function name is empty. *)
Theorem single_shape_iff_no_comma
    (h : RecordHandler) (deviceID : string) (p : QueryParams) :
  (buildAggregatedQuery_builder h deviceID p
   = [ Plan.baseFilter (Bucket h) (Start p) (Stop p) deviceID;
       Plan.singleStage (AggFreq p) (Aggr p) ]
   <-> Plan.hasComma (Aggr p) = false)
  /\ forall s : string,
      buildAggregatedQuery_builder h deviceID
        {| Start := Start p; Stop := Stop p; Aggr := s +:+ ",";
           AggFreq := AggFreq p |}
      = Plan.baseFilter (Bucket h) (Start p) (Stop p) deviceID
        :: map (Plan.stage (AggFreq p)) (strings.Split s "," ++ [""])
        ++ [Plan.unionPivot (map Plan.table (strings.Split s "," ++ [""]))]
      /\ In (Plan.stage (AggFreq p) "")
           (buildAggregatedQuery_builder h deviceID
              {| Start := Start p; Stop := Stop p; Aggr := s +:+ ",";
                 AggFreq := AggFreq p |}).
Proof.
  split.
  - split.
    + intros Hb. destruct (Plan.hasComma (Aggr p)) eqn:Hc; [| reflexivity].
      apply Split_comma in Hc.
      assert (1 < length (strings.Split (Aggr p) ","))%nat as Hlen by lia.
      rewrite (builder_multi h deviceID p Hlen) in Hb.
      apply (f_equal (@length string)) in Hb.
      cbn [length] in Hb. rewrite length_app, length_map in Hb.
      cbn [length] in Hb. lia.
    + apply builder_single.
  - intros s.
    assert (strings.Split (s +:+ ",") "," = strings.Split s "," ++ [""]) as Hs
      by apply Split_trailing.
    assert (buildAggregatedQuery_builder h deviceID
              {| Start := Start p; Stop := Stop p; Aggr := s +:+ ",";
                 AggFreq := AggFreq p |}
            = Plan.baseFilter (Bucket h) (Start p) (Stop p) deviceID
              :: map (Plan.stage (AggFreq p)) (strings.Split s "," ++ [""])
              ++ [Plan.unionPivot
                    (map Plan.table (strings.Split s "," ++ [""]))]) as Hb.
    { rewrite builder_multi; cbn [Aggr Start Stop AggFreq].
      - now rewrite Hs.
      - rewrite Hs, length_app. cbn [length].
        pose proof (Split_length_pos s ","). lia. }
    split; [exact Hb |]. rewrite Hb.
    right. apply in_or_app. left. rewrite map_app.
    apply in_or_app. right. left. reflexivity.
Qed.

(** The example of the claim: [aggr=mean,]. *)
Example aggr_trailing_comma :
  strings.Split "mean," "," = ["mean"; ""]
  /\ map Plan.table (strings.Split "mean," ",") = ["mean_data"; "_data"].
Proof. split; reflexivity. Qed.

End QueryBuilderClaims.

(* ===================================================================== *)
(** * The result shaper *)
(* ===================================================================== *)

Section ResultShaper.
Import models influxdb2 handlers Plan.

(** One round of the inner loop. *)
Lemma copy_step (key : string) (value : Value) (record : gmap string Value) :
  match helpers.IsInArray (nth 0 (strings.Split key "_") EmptyString)
          supportedAggregations with
  | Some true => <[key := value]> record
  | _ => record
  end
  = if kept key then <[key := value]> record else record.
Proof.
  unfold kept. now destruct (helpers.IsInArray _ _) as [[|]|].
Qed.

(** The inner loop copies the kept keys of the row over the record it
    started from and leaves the rest of that record alone. *)
Lemma copy_loop_lookup (values r0 : gmap string Value) (k : string) :
  map_fold
    (fun key value (record : gmap string Value) =>
       match helpers.IsInArray (nth 0 (strings.Split key "_") EmptyString)
               supportedAggregations with
       | Some true => <[key := value]> record
       | _ => record
       end)
    r0 values !! k
  = if kept k then
      match values !! k with Some v => Some v | None => r0 !! k end
    else r0 !! k.
Proof.
  revert k.
  apply (map_fold_weak_ind
           (fun (r : gmap string Value) (m : gmap string Value) =>
              forall k, r !! k
                = if kept k then
                    match m !! k with Some v => Some v | None => r0 !! k end
                  else r0 !! k)).
  - intros k. rewrite lookup_empty. now destruct (kept k).
  - intros i x m r Hi IH k. rewrite copy_step.
    destruct (decide (i = k)) as [->|Hne].
    + rewrite lookup_insert_eq. destruct (kept k) eqn:Hk.
      * now rewrite lookup_insert_eq.
      * rewrite IH, Hk. reflexivity.
    + rewrite (lookup_insert_ne m) by exact Hne.
      destruct (kept i); [rewrite lookup_insert_ne by exact Hne |]; apply IH.
Qed.

(** What an output record holds at each key. *)
Lemma processRecord_lookup (values : gmap string Value) (k : string) :
  processRecord values !! k
  = if kept k then values !! k
    else if String.eqb k "timestamp" then Some (index values "_time")
    else if String.eqb k "device_id" then Some (index values "device_id")
    else None.
Proof.
  unfold processRecord.
  rewrite (copy_loop_lookup values _ k).
  destruct (kept k) eqn:Hk.
  - destruct (values !! k) as [v|] eqn:Hv; [reflexivity |].
    destruct (String.eqb_spec k "device_id") as [->|Hd]; [discriminate Hk |].
    rewrite lookup_insert_ne by congruence.
    destruct (String.eqb_spec k "timestamp") as [->|Ht]; [discriminate Hk |].
    rewrite lookup_insert_ne by congruence. apply lookup_empty.
  - destruct (String.eqb_spec k "timestamp") as [->|Ht].
    + rewrite lookup_insert_ne by discriminate. now rewrite lookup_insert_eq.
    + destruct (String.eqb_spec k "device_id") as [->|Hd].
      * now rewrite lookup_insert_eq.
      * rewrite !lookup_insert_ne by congruence. apply lookup_empty.
Qed.

(** No row makes the shaper emit a bare metric or location field. *)
Lemma processRecord_drops_bare_fields (values : gmap string Value) :
  processRecord values !! "temperature" = None
  /\ processRecord values !! "humidity" = None
  /\ processRecord values !! "location" = None.
Proof. rewrite !processRecord_lookup. repeat split. Qed.

End ResultShaper.

(* ===================================================================== *)
(** * Record ingest *)
(* ===================================================================== *)

Section Float64Facts.
Import models.

Lemma digits2_pos_bounds (m : positive) :
  2 ^ (Zpos (digits2_pos m) - 1) <= Zpos m < 2 ^ Zpos (digits2_pos m).
Proof.
  induction m as [p IH|p IH|]; cbn [digits2_pos].
  - rewrite Pos2Z.inj_succ.
    replace (Z.succ (Zpos (digits2_pos p)) - 1)
      with (Z.succ (Zpos (digits2_pos p) - 1)) by lia.
    rewrite !Z.pow_succ_r by lia. lia.
  - rewrite Pos2Z.inj_succ.
    replace (Z.succ (Zpos (digits2_pos p)) - 1)
      with (Z.succ (Zpos (digits2_pos p) - 1)) by lia.
    rewrite !Z.pow_succ_r by lia. lia.
  - simpl. lia.
Qed.

(** A valid mantissa has at most 53 bits, and exactly 53 unless the number
    is subnormal (exponent -1074). *)
Lemma bounded_mantissa (m : positive) (e : Z) :
  bounded prec emax m e = true ->
  Zpos m < 2 ^ 53 /\ (-1074 <= e) /\ (-1074 < e -> 2 ^ 52 <= Zpos m).
Proof.
  unfold bounded, canonical_mantissa, fexp, emin, prec, emax.
  intros Hb. apply andb_true_iff in Hb as [Hc _]. apply Z.eqb_eq in Hc.
  pose proof (digits2_pos_bounds m) as [Hlo Hhi].
  set (d := Zpos (digits2_pos m)) in *.
  assert (0 < d) by (unfold d; lia).
  assert (d <= 53 /\ -1074 <= e /\ (-1074 < e -> d = 53)) as (Hd & He & Hn)
    by lia.
  split; [| split; [exact He |]].
  - apply Z.lt_le_trans with (1 := Hhi). apply Z.pow_le_mono_r; lia.
  - intros Hlt. rewrite (Hn Hlt) in Hlo. exact Hlo.
Qed.

(** [100.0 < h] on floats agrees with the order of the rationals. *)
Lemma above_hundred (m : positive) (e : Z) :
  bounded prec emax m e = true ->
  flt (float64_of_Z 100) (S754_finite false m e) = true
  <-> (100 < (if 0 <=? e then inject_Z (Zpos m * 2 ^ e)
              else Qmake (Zpos m) (2 ^ Z.to_pos (- e))%positive))%Q.
Proof.
  intros Hb. destruct (bounded_mantissa m e Hb) as (Hhi & He & Hlo).
  change (float64_of_Z 100) with (S754_finite false 7036874417766400 (-46)).
  unfold flt, SFltb, SFcompare.
  destruct (Z.leb_spec 0 e) as [Hpos|Hneg].
  - destruct (Z.compare_spec (-46) e) as [E|E|E]; try lia.
    split; [intros _ | reflexivity].
    unfold Qlt, inject_Z; cbn [Qnum Qden].
    assert (1 <= 2 ^ e)
      by (apply Z.pow_le_mono_r with (b := 0) (c := e) (a := 2); lia).
    specialize (Hlo ltac:(lia)). nia.
  - assert (Zpos (2 ^ Z.to_pos (- e))%positive = 2 ^ (- e)) as Hp.
    { rewrite Pos2Z.inj_pow. f_equal. lia. }
    unfold Qlt; cbn [Qnum Qden]. rewrite Hp.
    destruct (Z.compare_spec (-46) e) as [E|E|E].
    + subst e. change (2 ^ (- -46)) with 70368744177664.
      rewrite Pos.compare_cont_spec. cbn [Pos.switch_Eq].
      destruct (Pos.compare_spec 7036874417766400 m) as [C|C|C].
      * subst m. split; [discriminate | intros Hlt; exfalso; clear - Hlt; lia].
      * apply Pos2Z.pos_lt_pos in C.
        split; [intros _; clear - C; lia | intros _; exact eq_refl].
      * apply Pos2Z.pos_lt_pos in C.
        split; [discriminate | intros Hlt; exfalso; clear - C Hlt; lia].
    + split; [intros _ | reflexivity].
      specialize (Hlo ltac:(lia)).
      assert (2 ^ (- e) <= 2 ^ 45) as Hle by (apply Z.pow_le_mono_r; lia).
      clear - Hlo Hle. lia.
    + split; [discriminate |]. intros Hlt. exfalso.
      assert (2 ^ 47 <= 2 ^ (- e)) as Hle by (apply Z.pow_le_mono_r; lia).
      clear - Hhi Hle Hlt. lia.
Qed.

(** The range test of [PostData] is true exactly for the floats whose
    value lies outside [[0, 100]]. *)
Lemma range_check_correct (x : float64) (q : Q) :
  is_float64 x = true -> float64_value x = Some q ->
  flt x (float64_of_Z 0) || flt (float64_of_Z 100) x = true
  <-> (q < 0 \/ 100 < q)%Q.
Proof.
  intros Hv Hq. destruct x as [s|s| |s m e]; try discriminate Hq.
  - injection Hq as <-. split; [discriminate |].
    intros [H|H]; discriminate H.
  - cbn [float64_value] in Hq. injection Hq as <-.
    cbn [is_float64 valid_binary] in Hv. destruct s.
    + split; [intros _; left | reflexivity].
      destruct (Z.leb_spec 0 e) as [Hpos|Hneg];
        unfold Qlt, inject_Z; cbn [Qnum Qden].
      * pose proof (Z.pow_pos_nonneg 2 e ltac:(lia) Hpos). nia.
      * lia.
    + change (flt (S754_finite false m e) (float64_of_Z 0)) with false.
      rewrite orb_false_l, (above_hundred m e Hv).
      split; [intros H; right; exact H | intros [H|H]; [| exact H]].
      exfalso. revert H.
      destruct (Z.leb_spec 0 e) as [Hpos|Hneg];
        unfold Qlt, inject_Z; cbn [Qnum Qden].
      * pose proof (Z.pow_pos_nonneg 2 e ltac:(lia) Hpos). nia.
      * lia.
Qed.

End Float64Facts.

Section Ingest.
Import models influxdb2 gin handlers.

(** A reading with a zero-valued field does not bind. *)
Lemma zero_field_fails_binding (c : Context) (d : SensorData) :
  Body c = Some d ->
  DeviceID d = "" \/ feq (Temperature d) (float64_of_Z 0) = true
  \/ feq (Humidity d) (float64_of_Z 0) = true \/ Location d = ""
  \/ TimestampSampled d = zeroTime ->
  ShouldBindJSON c = None.
Proof.
  intros Hbody Hzero. unfold ShouldBindJSON. rewrite Hbody.
  cbn [SensorData_fields forallb].
  unfold validateField, hasValue. cbn [binding_tag field_value].
  change (String.eqb "required" "required") with true. cbv iota.
  change (float64_of_Z 0) with (S754_zero false) in Hzero.
  destruct Hzero as [H|[H|[H|[H|H]]]]; rewrite H; cbn [negb andb];
    rewrite ?andb_false_r; reflexivity.
Qed.

(** A reading that binds has no zero-valued field. *)
Lemma binding_gives_body (c : Context) (d : SensorData) :
  ShouldBindJSON c = Some d -> Body c = Some d.
Proof.
  unfold ShouldBindJSON. destruct (Body c) as [d'|]; [| discriminate].
  destruct (forallb validateField (SensorData_fields d')); [| discriminate].
  congruence.
Qed.

(** C8. A reading in which a required field holds its zero value (an
    empty device id or location, a temperature or a humidity equal to 0,
    the zero [time.Time]) is answered 400 "Invalid input"; nothing is
    written to the store, and the humidity range is not looked at. *)
Theorem PostData_rejects_zero_fields
    (h : RecordHandler) (c : Context) (d : SensorData) (log : list Call) :
  Body c = Some d ->
  DeviceID d = "" \/ feq (Temperature d) (float64_of_Z 0) = true
  \/ feq (Humidity d) (float64_of_Z 0) = true \/ Location d = ""
  \/ TimestampSampled d = zeroTime ->
  PostData h c log
  = (JSON http.StatusBadRequest (ErrorBody "Invalid input"), log).
Proof.
  intros Hbody Hzero. unfold PostData.
  now rewrite (zero_field_fails_binding c d Hbody Hzero).
Qed.

(** What is tested is the struct, not the instant: the zero [time.Time] is
    turned down, and the same instant given at the offset +01:00 is a value,
    so that reading is written and answered 200. *)
Example PostData_zero_instant_at_offset :
  PostData Scenario.h (Scenario.post (Cases.sampledAt zeroTime)) []
  = (JSON http.StatusBadRequest (ErrorBody "Invalid input"), [])
  /\ PostData Scenario.h
       (Scenario.post (Cases.sampledAt Cases.yearOneAtOffset)) []
     = (JSON http.StatusOK
          (StoredBody "Data stored successfully"
             (Cases.sampledAt Cases.yearOneAtOffset)),
        [ CallWrite "brewery" "sensors"
            (Sent.pointOf (Cases.sampledAt Cases.yearOneAtOffset)) ]).
Proof. split; vm_compute; reflexivity. Qed.

(** X12. Whatever else the request holds, a humidity outside [[0, 100]] is
    answered 400 and the store is not written. *)
Lemma PostData_rejects_out_of_range
    (h : RecordHandler) (c : Context) (d : SensorData) (log : list Call)
    (q : Q) :
  Body c = Some d ->
  is_float64 (Humidity d) = true -> float64_value (Humidity d) = Some q ->
  (q < 0 \/ 100 < q)%Q ->
  exists msg,
    PostData h c log = (JSON http.StatusBadRequest (ErrorBody msg), log).
Proof.
  intros Hbody Hv Hq Hout. unfold PostData.
  destruct (ShouldBindJSON c) as [data|] eqn:Hbind; [| eauto].
  apply binding_gives_body in Hbind.
  assert (data = d) as -> by congruence.
  apply (range_check_correct _ _ Hv Hq) in Hout. rewrite Hout. eauto.
Qed.

(** X13. A reading that binds and whose humidity lies in [[0, 100]] is
    written as one point (tag [device_id], fields [temperature], [humidity]
    and [location], at the time the reading carries); the answer is 200
    when the write succeeds and 500 when it fails. *)
Lemma PostData_accepts_in_range
    (h : RecordHandler) (c : Context) (d : SensorData) (log : list Call)
    (q : Q) :
  ShouldBindJSON c = Some d ->
  is_float64 (Humidity d) = true -> float64_value (Humidity d) = Some q ->
  (0 <= q /\ q <= 100)%Q ->
  PostData h c log
  = (match write_answer (InfluxClient h) log (Org h) (Bucket h)
             (Sent.pointOf d) with
     | None => JSON http.StatusOK (StoredBody "Data stored successfully" d)
     | Some _ => JSON http.StatusInternalServerError
                   (ErrorBody "Failed to store data")
     end,
     log ++ [CallWrite (Org h) (Bucket h) (Sent.pointOf d)]).
Proof.
  intros Hbind Hv Hq [Hlo Hhi]. unfold PostData. rewrite Hbind.
  destruct (flt (Humidity d) (float64_of_Z 0)
            || flt (float64_of_Z 100) (Humidity d)) eqn:Hr.
  - apply (range_check_correct _ _ Hv Hq) in Hr.
    destruct Hr as [Hr|Hr]; exfalso.
    + exact (Qlt_not_le _ _ Hr Hlo).
    + exact (Qlt_not_le _ _ Hr Hhi).
  - unfold mbind, M_bind, influxdb2.bind, WritePoint.
    change (SetTime _ _) with (Sent.pointOf d).
    destruct (write_answer _ _ _ _ _); reflexivity.
Qed.

(** C3. Humidity 0.0 lies in [[0, 100]] and passes the range test of the
    handler, yet the reading is turned down (400 "Invalid input") and
    nothing is written: the required binding on the humidity field takes
    the lower boundary for a missing value. *)
Theorem PostData_humidity_zero_rejected :
  is_float64 (float64_of_Z 0) = true
  /\ float64_value (Humidity (Scenario.withHumidity (float64_of_Z 0)))
     = Some 0%Q
  /\ flt (float64_of_Z 0) (float64_of_Z 0)
     || flt (float64_of_Z 100) (float64_of_Z 0) = false
  /\ PostData Scenario.h
       (Scenario.post (Scenario.withHumidity (float64_of_Z 0))) []
     = (JSON http.StatusBadRequest (ErrorBody "Invalid input"), []).
Proof. repeat split. Qed.

(** The scenarios of the specification: the reading with humidity 55.0 is
    stored, the one with humidity 150 is turned down. *)
Example PostData_scenario_stored :
  PostData Scenario.h (Scenario.post Scenario.reading) []
  = (JSON http.StatusOK
       (StoredBody "Data stored successfully" Scenario.reading),
     [CallWrite "brewery" "sensors" (Sent.pointOf Scenario.reading)]).
Proof. reflexivity. Qed.

Example PostData_scenario_150 :
  PostData Scenario.h (Scenario.post (Scenario.withHumidity Scenario.f150)) []
  = (JSON http.StatusBadRequest
       (ErrorBody "Humidity Must be in range [0.0, 100.00]"), []).
Proof. reflexivity. Qed.

End Ingest.

(* ===================================================================== *)
(** * The device query handler *)
(* ===================================================================== *)

Section DeviceQuery.
Import models influxdb2 gin handlers.

Lemma Sprintf_raw (bucket start stop deviceId : string) :
  fmt.Sprintf rawTemplate [bucket; start; stop; deviceId]
  = Sent.rawQuery bucket start stop deviceId.
Proof. reflexivity. Qed.

(** One run of the handler: the bound parameters select the query, the
    query is sent, and the answer of the store decides between 200 with
    the shaped records and 500. *)
Lemma GetDataFromDeviceByID_run
    (h : RecordHandler) (now : string) (c : Context) (log : list Call) :
  GetDataFromDeviceByID h now c log
  = (match query_answer (InfluxClient h) log (Org h)
             (Sent.deviceQuery h now c) with
     | inl result =>
         match Err result with
         | None => JSON http.StatusOK
                     (DataBody (map processRecord (rows result)))
         | Some _ => JSON http.StatusInternalServerError
                       (ErrorBody "Failed to retrieve data")
         end
     | inr _ => JSON http.StatusInternalServerError
                  (ErrorBody "Failed to retrieve data")
     end,
     log ++ [CallQuery (Org h) (Sent.deviceQuery h now c)]).
Proof.
  unfold GetDataFromDeviceByID, ShouldBindQuery.
  cbn [Start Stop Aggr AggFreq]. fold (Sent.boundParams now c).
  rewrite Sprintf_raw. fold (Sent.deviceQuery h now c).
  unfold executeAndProcessQuery, mbind, M_bind, influxdb2.bind, Query.
  destruct (query_answer _ _ _ _) as [result|err]; [| reflexivity].
  destruct (Err result); reflexivity.
Qed.

(** Every run sends exactly one query and never answers 400. *)
Lemma GetDataFromDeviceByID_always_queries
    (h : RecordHandler) (now : string) (c : Context) (log : list Call) :
  snd (GetDataFromDeviceByID h now c log)
  = log ++ [CallQuery (Org h) (Sent.deviceQuery h now c)]
  /\ status (fst (GetDataFromDeviceByID h now c log))
     <> http.StatusBadRequest.
Proof.
  rewrite GetDataFromDeviceByID_run. split; [reflexivity |].
  cbn [fst]. destruct (query_answer _ _ _ _) as [result|err];
    [destruct (Err result) |]; discriminate.
Qed.

(** No record of a 200 answer carries a bare metric or location field,
    with or without [aggr]. *)
Lemma GetDataFromDeviceByID_no_bare_fields
    (h : RecordHandler) (now : string) (c : Context) (log : list Call)
    (records : list (gmap string Value)) (r : gmap string Value) :
  body (fst (GetDataFromDeviceByID h now c log)) = DataBody records ->
  In r records ->
  r !! "temperature" = None /\ r !! "humidity" = None
  /\ r !! "location" = None.
Proof.
  rewrite GetDataFromDeviceByID_run. cbn [fst].
  destruct (query_answer _ _ _ _) as [result|err]; [| discriminate].
  destruct (Err result); [discriminate |].
  cbn [body JSON]. intros [= <-] Hin.
  apply in_map_iff in Hin as (values & <- & _).
  apply processRecord_drops_bare_fields.
Qed.

(** The handlers for all data and for a location keep the bare fields of
    the same row. *)
Example sibling_handlers_keep_bare_fields :
  rawRecord (Scenario.pivotRow (Sent.pointOf Scenario.reading))
  = {[ "timestampSampled" := VTime Scenario.feb1;
       "deviceId" := VString "sensor_123";
       "temperature" := VFloat Scenario.f18_5;
       "humidity" := VFloat Scenario.f55;
       "location" := VString "Room 1" ]}.
Proof. vm_compute. reflexivity. Qed.

(** C1. The reading of the scenario (temperature 18.5, humidity 55.0) is
    stored and then fetched by the raw device query over its time range:
    the one record returned holds [timestamp] and [device_id] only, and
    none of the bare fields [temperature], [humidity], [location]. *)
Theorem raw_device_query_drops_bare_fields :
  GetDataFromDeviceByID Scenario.h Scenario.now Scenario.getDevice
    (snd (PostData Scenario.h (Scenario.post Scenario.reading) []))
  = (JSON http.StatusOK
       (DataBody [ {[ "timestamp" := VTime Scenario.feb1;
                      "device_id" := VString "sensor_123" ]} ]),
     [ CallWrite "brewery" "sensors" (Sent.pointOf Scenario.reading);
       CallQuery "brewery"
         (Sent.rawQuery "sensors" "2024-02-01T00:00:00Z"
            "2024-02-02T00:00:00Z" "sensor_123") ])
  /\ Scenario.pivotRow (Sent.pointOf Scenario.reading) !! "temperature"
     = Some (VFloat Scenario.f18_5)
  /\ Scenario.pivotRow (Sent.pointOf Scenario.reading) !! "humidity"
     = Some (VFloat Scenario.f55)
  /\ processRecord (Scenario.pivotRow (Sent.pointOf Scenario.reading))
       !! "temperature" = None
  /\ processRecord (Scenario.pivotRow (Sent.pointOf Scenario.reading))
       !! "humidity" = None
  /\ processRecord (Scenario.pivotRow (Sent.pointOf Scenario.reading))
       !! "location" = None.
Proof. repeat split; vm_compute; reflexivity. Qed.

(** Called with a context that binds no device id, which no route
    produces, the handler queries the store for the device [""] and answers
    200. *)
Example GetDataFromDeviceByID_without_parameter :
  Param Scenario.getNoDevice "deviceId" = ""
  /\ GetDataFromDeviceByID Scenario.h Scenario.now Scenario.getNoDevice []
     = (JSON http.StatusOK (DataBody []),
        [ CallQuery "brewery"
            (Sent.rawQuery "sensors" "-30d" Scenario.now "") ]).
Proof. split; vm_compute; reflexivity. Qed.

End DeviceQuery.

Section Routing.
Import models influxdb2 gin handlers.

(** Without a slash the string is its own single segment. *)
Lemma Split_no_slash (s : string) :
  engine.hasSlash s = false -> strings.Split s "/" = [s].
Proof.
  induction s as [|c s IH]; simpl; [reflexivity |].
  destruct (Ascii.eqb c "/"); simpl; [discriminate |].
  intros Hs. now rewrite (IH Hs).
Qed.

(** The segments of a device path. *)
Lemma Split_device_path (deviceId : string) :
  engine.hasSlash deviceId = false ->
  strings.Split ("/records/devices/" +:+ deviceId) "/"
  = [""; "records"; "devices"; deviceId].
Proof.
  intros Hs. cbn. rewrite (Split_no_slash _ Hs). reflexivity.
Qed.

(** What the device route matches: four segments, the last one not empty,
    bound to [deviceId]. *)
Lemma matchSegments_device (path : list string)
    (params : gmap string string) :
  engine.matchSegments [""; "records"; "devices"; ":deviceId"] path ∅
  = Some params ->
  exists deviceId,
    deviceId <> "" /\ path = [""; "records"; "devices"; deviceId]
    /\ params = {[ "deviceId" := deviceId ]}.
Proof.
  destruct path as [|s0 [|s1 [|s2 [|s3 [|s4 path]]]]];
    cbn [engine.matchSegments engine.paramName]; try discriminate.
  all: destruct (String.eqb_spec "" s0) as [<-|]; [| discriminate].
  all: try discriminate.
  all: destruct (String.eqb_spec "records" s1) as [<-|]; [| discriminate].
  all: try discriminate.
  all: destruct (String.eqb_spec "devices" s2) as [<-|]; [| discriminate].
  all: try discriminate.
  all: destruct (String.eqb_spec s3 "") as [->|Hne]; [discriminate |].
  all: try discriminate.
  intros [= <-]. exists s3. split; [exact Hne | split; reflexivity].
Qed.

(** The other three routes name other handlers. *)
Lemma findRoute_device (method path : string)
    (params : gmap string string) :
  engine.findRoute RegisterRoutes method path
  = Some (GetDataFromDeviceByIDHandler, params) ->
  method = "GET"
  /\ engine.matchSegments [""; "records"; "devices"; ":deviceId"]
       (strings.Split path "/") ∅ = Some params.
Proof.
  unfold RegisterRoutes. cbn [engine.findRoute].
  destruct (String.eqb_spec "POST" method) as [<-|_].
  { cbn [String.eqb Ascii.eqb Bool.eqb].
    destruct (engine.matchPattern "/records" path); discriminate. }
  destruct (String.eqb_spec "GET" method) as [<-|_]; [| discriminate].
  destruct (engine.matchPattern "/records" path); [discriminate |].
  unfold engine.matchPattern at 1.
  change (strings.Split "/records/devices/:deviceId" "/")
    with [""; "records"; "devices"; ":deviceId"].
  destruct (engine.matchSegments [""; "records"; "devices"; ":deviceId"]
              (strings.Split path "/") ∅) as [ps|] eqn:E.
  - intros [= <-]. split; reflexivity.
  - destruct (engine.matchPattern "/records/locations/:location" path);
      discriminate.
Qed.

(** A device path with an id is routed to the device handler, with the id
    as the only path parameter. *)
Lemma findRoute_device_path (deviceId : string) :
  deviceId <> "" -> engine.hasSlash deviceId = false ->
  engine.findRoute RegisterRoutes "GET" ("/records/devices/" +:+ deviceId)
  = Some (GetDataFromDeviceByIDHandler, {[ "deviceId" := deviceId ]}).
Proof.
  intros Hne Hs. unfold RegisterRoutes, engine.findRoute, engine.matchPattern.
  rewrite (Split_device_path _ Hs).
  change (strings.Split "/records" "/") with [""; "records"].
  change (strings.Split "/records/devices/:deviceId" "/")
    with [""; "records"; "devices"; ":deviceId"].
  cbn. destruct (String.eqb_spec deviceId ""); [contradiction | reflexivity].
Qed.




End Routing.


Section AggregatedQueries.
Import models influxdb2 gin handlers.

(** C2, as the code has it.  No token is turned down: for every non-empty
    [aggr], supported or not, the handler builds the aggregated query and
    sends it to the store, and every token of [aggr] is the function of a
    stage of that query. *)
Theorem aggregation_tokens_not_validated
    (h : RecordHandler) (now : string) (c : Context) (log : list Call)
    (aggr : string) :
  QueryValues c !! "aggr" = Some aggr -> aggr <> "" ->
  snd (GetDataFromDeviceByID h now c log)
  = log ++ [CallQuery (Org h)
              (buildAggregatedQuery h (Param c "deviceId")
                 (Sent.boundParams now c))]
  /\ forall tok, In tok (strings.Split aggr ",") ->
       In (Plan.stage (AggFreq (Sent.boundParams now c)) tok)
          (buildAggregatedQuery_builder h (Param c "deviceId")
             (Sent.boundParams now c))
       \/ In (Plan.singleStage (AggFreq (Sent.boundParams now c)) tok)
             (buildAggregatedQuery_builder h (Param c "deviceId")
                (Sent.boundParams now c)).
Proof.
  intros Haggr Hne.
  assert (Aggr (Sent.boundParams now c) = aggr) as Ha
    by (unfold Sent.boundParams; cbn [Aggr]; now rewrite Haggr).
  split.
  - destruct (GetDataFromDeviceByID_always_queries h now c log) as [-> _].
    unfold Sent.deviceQuery. rewrite Ha.
    destruct (String.eqb_spec aggr ""); [contradiction | reflexivity].
  - intros tok Htok.
    destruct (Plan.hasComma aggr) eqn:Hc.
    + left. rewrite builder_multi; rewrite Ha.
      * right. apply in_or_app. left. now apply in_map.
      * apply Split_comma in Hc. lia.
    + right. rewrite builder_single by now rewrite Ha.
      rewrite (Split_no_comma _ Hc) in Htok.
      destruct Htok as [<-|[]]. rewrite Ha. right. left. reflexivity.
Qed.

(** The request with [aggr=median] meets the hypotheses. *)
Lemma aggregation_tokens_not_validated_witness :
  QueryValues (Scenario.getDeviceAggr "median") !! "aggr" = Some "median"
  /\ "median" <> ""
  /\ snd (GetDataFromDeviceByID Scenario.h Scenario.now
            (Scenario.getDeviceAggr "median") [])
     = [] ++ [CallQuery (Org Scenario.h)
                (buildAggregatedQuery Scenario.h
                   (Param (Scenario.getDeviceAggr "median") "deviceId")
                   (Sent.boundParams Scenario.now
                      (Scenario.getDeviceAggr "median")))].
Proof.
  split; [reflexivity |]. split; [discriminate |].
  apply (aggregation_tokens_not_validated Scenario.h Scenario.now
           (Scenario.getDeviceAggr "median") [] "median");
    [reflexivity | discriminate].
Defined.

(** C2, as stated, fails: [median] is not a supported aggregation, yet
    [aggr=median] is not turned down; the query is built with [median] as
    the function of its stage and sent to the store. *)
Lemma unsupported_token_is_queried :
  helpers.IsInArray "median" supportedAggregations = Some false
  /\ buildAggregatedQuery_builder Scenario.h "sensor_123"
       (Sent.boundParams Scenario.now (Scenario.getDeviceAggr "median"))
     = [ Plan.baseFilter "sensors" "2024-02-01T00:00:00Z"
           "2024-02-02T00:00:00Z" "sensor_123";
         Plan.singleStage "1d" "median" ]
  /\ snd (GetDataFromDeviceByID Scenario.h Scenario.now
            (Scenario.getDeviceAggr "median") [])
     = [ CallQuery "brewery"
           (Plan.baseFilter "sensors" "2024-02-01T00:00:00Z"
              "2024-02-02T00:00:00Z" "sensor_123"
            +:+ Plan.singleStage "1d" "median") ].
Proof. repeat split; vm_compute; reflexivity. Qed.

Lemma kept_requested_field (fn metric : string) :
  In fn supportedAggregations -> In metric Plan.metrics ->
  Plan.kept (Plan.fieldName fn metric) = true.
Proof.
  intros Hf Hm. cbn [In supportedAggregations Plan.metrics] in Hf, Hm.
  destruct Hf as [<-|[<-|[<-|[<-|[]]]]]; destruct Hm as [<-|[<-|[]]];
    reflexivity.
Qed.

Lemma dropped_store_column (k : string) :
  In k Plan.storeColumns -> Plan.kept k = false.
Proof.
  intros Hk. cbn [In Plan.storeColumns] in Hk.
  repeat (destruct Hk as [<-|Hk]; [reflexivity |]). destruct Hk.
Qed.

(** The fields of an aggregated record.  For requested functions that are
    all supported, and a row of the pivoted result (store columns and the
    columns [{function}_{metric}] of the cross-product), the output record
    has exactly the fields [{function}_{metric}] of the cross-product plus
    [timestamp] and the device under the key [device_id], each value taken
    over from the row. *)
Theorem aggregated_record_fields
    (fns : list string) (values : gmap string Value) :
  (forall fn, In fn fns -> In fn supportedAggregations) ->
  (forall k, is_Some (values !! k) ->
     In k Plan.storeColumns \/ In k (Plan.requestedFields fns)) ->
  (forall k, In k (Plan.requestedFields fns) -> is_Some (values !! k)) ->
  (forall k, is_Some (processRecord values !! k) <->
     k = "timestamp" \/ k = "device_id"
     \/ exists fn metric, In fn fns /\ In metric Plan.metrics
                          /\ k = Plan.fieldName fn metric)
  /\ processRecord values !! "timestamp" = Some (index values "_time")
  /\ processRecord values !! "device_id" = Some (index values "device_id")
  /\ forall k, In k (Plan.requestedFields fns) ->
       processRecord values !! k = values !! k.
Proof.
  intros Hsup Hcols Hall.
  assert (forall k, In k (Plan.requestedFields fns) <->
            exists fn metric, In fn fns /\ In metric Plan.metrics
                              /\ k = Plan.fieldName fn metric) as Hreq.
  { intros k. unfold Plan.requestedFields. rewrite in_flat_map. split.
    - intros (fn & Hfn & Hk). apply in_map_iff in Hk as (m & <- & Hm). eauto.
    - intros (fn & m & Hfn & Hm & ->). exists fn.
      split; [exact Hfn | now apply in_map]. }
  assert (forall k, In k (Plan.requestedFields fns) -> Plan.kept k = true)
    as Hkept.
  { intros k Hk. apply Hreq in Hk as (fn & m & Hfn & Hm & ->).
    apply kept_requested_field; auto. }
  split; [| split; [| split]].
  - intros k. rewrite processRecord_lookup, <- Hreq. split.
    + destruct (Plan.kept k) eqn:Hk.
      * intros Hsome. destruct (Hcols k Hsome) as [Hc|Hr]; [| tauto].
        apply dropped_store_column in Hc. congruence.
      * destruct (String.eqb_spec k "timestamp"); [tauto |].
        destruct (String.eqb_spec k "device_id"); [tauto |].
        intros [v Hv]. discriminate Hv.
    + intros [->|[->|Hr]]; [eexists; reflexivity | eexists; reflexivity |].
      rewrite (Hkept k Hr). now apply Hall.
  - now rewrite processRecord_lookup.
  - now rewrite processRecord_lookup.
  - intros k Hk. now rewrite processRecord_lookup, (Hkept k Hk).
Qed.

End AggregatedQueries.

Section Witnesses.
Import models influxdb2 gin handlers.

(** C4.  The shaper at the row of [aggr=mean,max]: the record has the
    four fields [{function}_{metric}] and [timestamp], but no field
    [deviceId]; the device is under the key [device_id], where the handlers
    for all data and for a location name it [deviceId]. *)
Lemma aggregated_record_has_no_deviceId :
  processRecord Scenario.meanMaxRow !! "deviceId" = None
  /\ processRecord Scenario.meanMaxRow !! "device_id"
     = Some (VString "sensor_123")
  /\ processRecord Scenario.meanMaxRow
     = {[ "timestamp" := VTime Scenario.feb2;
          "device_id" := VString "sensor_123";
          "mean_temperature" := VFloat Scenario.f18_5;
          "mean_humidity" := VFloat Scenario.f55;
          "max_temperature" := VFloat Scenario.f18_5;
          "max_humidity" := VFloat Scenario.f55 ]}.
Proof. repeat split; vm_compute; reflexivity. Qed.

(** The columns of the row for [aggr=mean,max]. *)
Lemma meanMaxRow_columns (k : string) :
  is_Some (Scenario.meanMaxRow !! k) ->
  In k Plan.storeColumns \/ In k (Plan.requestedFields ["mean"; "max"]).
Proof.
  intros [v Hv]. unfold Scenario.meanMaxRow in Hv.
  apply elem_of_list_to_map_2 in Hv.
  repeat (apply elem_of_cons in Hv as [Hv|Hv];
          [injection Hv as -> _; cbn; tauto |]).
  apply elem_of_nil in Hv. destruct Hv.
Qed.

(** The row for [aggr=mean,max] meets the hypotheses. *)
Lemma aggregated_record_fields_witness :
  (forall k, is_Some (processRecord Scenario.meanMaxRow !! k) <->
     k = "timestamp" \/ k = "device_id"
     \/ exists fn metric, In fn ["mean"; "max"] /\ In metric Plan.metrics
                          /\ k = Plan.fieldName fn metric)
  /\ processRecord Scenario.meanMaxRow !! "timestamp"
     = Some (index Scenario.meanMaxRow "_time")
  /\ processRecord Scenario.meanMaxRow !! "device_id"
     = Some (index Scenario.meanMaxRow "device_id")
  /\ forall k, In k (Plan.requestedFields ["mean"; "max"]) ->
       processRecord Scenario.meanMaxRow !! k = Scenario.meanMaxRow !! k.
Proof.
  apply (aggregated_record_fields ["mean"; "max"] Scenario.meanMaxRow).
  - intros fn [<-|[<-|[]]]; cbn; tauto.
  - exact meanMaxRow_columns.
  - intros k Hk. cbn in Hk.
    repeat (destruct Hk as [<-|Hk]; [eexists; vm_compute; reflexivity |]).
    destruct Hk.
Defined.

(** [aggr=mean,max] has two functions. *)
Lemma multi_aggregation_plan_witness :
  (1 < length (strings.Split "mean,max" ","))%nat
  /\ buildAggregatedQuery_builder Scenario.h "sensor_123"
       {| Start := "-30d"; Stop := Scenario.now; Aggr := "mean,max";
          AggFreq := "1d" |}
     = Plan.baseFilter "sensors" "-30d" Scenario.now "sensor_123"
       :: map (Plan.stage "1d") ["mean"; "max"]
       ++ [Plan.unionPivot ["mean_data"; "max_data"]].
Proof.
  split; [cbn; lia |].
  apply (multi_aggregation_plan Scenario.h "sensor_123"
           {| Start := "-30d"; Stop := Scenario.now; Aggr := "mean,max";
              AggFreq := "1d" |}).
  cbn. lia.
Defined.

(** Two handlers that differ in the organisation only build the same query. *)
Lemma buildAggregatedQuery_deterministic_witness :
  buildAggregatedQuery
    {| InfluxClient := Scenario.memoryClient; Org := "brewery";
       Bucket := "sensors" |} "sensor_123"
    {| Start := "-30d"; Stop := Scenario.now; Aggr := "mean,max";
       AggFreq := "1d" |}
  = buildAggregatedQuery
      {| InfluxClient := Scenario.memoryClient; Org := "cellar";
         Bucket := "sensors" |} "sensor_123"
      {| Start := "-30d"; Stop := Scenario.now; Aggr := "mean,max";
         AggFreq := "1d" |}.
Proof.
  apply (buildAggregatedQuery_deterministic
           {| InfluxClient := Scenario.memoryClient; Org := "brewery";
              Bucket := "sensors" |}
           {| InfluxClient := Scenario.memoryClient; Org := "cellar";
              Bucket := "sensors" |}
           "sensor_123" "sensor_123"
           {| Start := "-30d"; Stop := Scenario.now; Aggr := "mean,max";
              AggFreq := "1d" |}
           {| Start := "-30d"; Stop := Scenario.now; Aggr := "mean,max";
              AggFreq := "1d" |});
    reflexivity.
Defined.

(** A reading with temperature 0 and humidity 55.0. *)
Lemma PostData_rejects_zero_fields_witness :
  Body (Scenario.post (Scenario.withTemperature (float64_of_Z 0)))
  = Some (Scenario.withTemperature (float64_of_Z 0))
  /\ feq (Temperature (Scenario.withTemperature (float64_of_Z 0)))
       (float64_of_Z 0) = true
  /\ PostData Scenario.h
       (Scenario.post (Scenario.withTemperature (float64_of_Z 0))) []
     = (JSON http.StatusBadRequest (ErrorBody "Invalid input"), []).
Proof.
  split; [reflexivity |]. split; [reflexivity |].
  apply (PostData_rejects_zero_fields Scenario.h
           (Scenario.post (Scenario.withTemperature (float64_of_Z 0)))
           (Scenario.withTemperature (float64_of_Z 0)) []).
  - reflexivity.
  - right. left. reflexivity.
Defined.

End Witnesses.


(* ===================================================================== *)
(** * The handlers that fetch without aggregation *)
(* ===================================================================== *)

Section RawHandlers.
Import models influxdb2 gin handlers.

Lemma Sprintf_char (c : ascii) (rest : string) (args : list string) :
  Ascii.eqb c "%" = false ->
  fmt.Sprintf (String c rest) args = String c (fmt.Sprintf rest args).
Proof.
  destruct c as [[] [] [] [] [] [] [] []]; intros Hc;
    try discriminate Hc; reflexivity.
Qed.

(** Text without [%] passes through [fmt.Sprintf] unchanged. *)
Lemma Sprintf_plain (s rest : string) (args : list string) :
  Raw.noPercent s = true ->
  fmt.Sprintf (s +:+ rest) args = s +:+ fmt.Sprintf rest args.
Proof.
  induction s as [|c s IH]; [reflexivity |].
  cbn [Raw.noPercent]. intros Hs. apply andb_true_iff in Hs as [Hc Hs].
  apply negb_true_iff in Hc.
  change (String c s +:+ rest) with (String c (s +:+ rest)).
  rewrite (Sprintf_char c _ _ Hc), (IH Hs). reflexivity.
Qed.

Lemma allDataSent_text (h : RecordHandler) (now : string) (c : Context) :
  Raw.noPercent (Bucket h) = true ->
  Raw.allDataSent h now c
  = Raw.allDataQuery (Bucket h) (Raw.startOf c) (Raw.stopOf now c).
Proof.
  intros Hb. unfold Raw.allDataSent.
  rewrite (Sprintf_plain allDataHead) by reflexivity.
  rewrite (Sprintf_plain (Bucket h)) by exact Hb.
  reflexivity.
Qed.

Lemma locationSent_text (h : RecordHandler) (now : string) (c : Context) :
  Raw.noPercent (Bucket h) = true ->
  Raw.locationSent h now c
  = Raw.locationQuery (Bucket h) (Raw.startOf c) (Raw.stopOf now c)
      (Param c "location").
Proof.
  intros Hb. unfold Raw.locationSent.
  rewrite (Sprintf_plain locationHead) by reflexivity.
  rewrite (Sprintf_plain (Bucket h)) by exact Hb.
  reflexivity.
Qed.

(** One run of [GetAllData]. *)
Lemma GetAllData_run
    (h : RecordHandler) (now : string) (c : Context) (log : list Call) :
  GetAllData h now c log
  = (match query_answer (InfluxClient h) log (Org h)
             (Raw.allDataSent h now c) with
     | inl result =>
         match Err result with
         | None => JSON http.StatusOK (DataBody (map rawRecord (rows result)))
         | Some _ => JSON http.StatusInternalServerError
                       (ErrorBody "Failed to process data")
         end
     | inr _ => JSON http.StatusInternalServerError
                  (ErrorBody "Failed to retrieve data")
     end,
     log ++ [CallQuery (Org h) (Raw.allDataSent h now c)]).
Proof.
  unfold GetAllData, ShouldBindQuery. cbn [Start Stop].
  fold (Raw.startOf c) (Raw.stopOf now c). fold (Raw.allDataSent h now c).
  unfold mbind, M_bind, influxdb2.bind, Query.
  destruct (query_answer _ _ _ _) as [result|err]; [| reflexivity].
  destruct (Err result); reflexivity.
Qed.

(** One run of [GetDataFromDeviceByLocation] for a location that is not
    empty. *)
Lemma GetDataFromDeviceByLocation_run
    (h : RecordHandler) (now : string) (c : Context) (log : list Call) :
  Param c "location" <> "" ->
  GetDataFromDeviceByLocation h now c log
  = (match query_answer (InfluxClient h) log (Org h)
             (Raw.locationSent h now c) with
     | inl result =>
         match Err result with
         | None => JSON http.StatusOK (DataBody (map rawRecord (rows result)))
         | Some _ => JSON http.StatusInternalServerError
                       (ErrorBody "Failed to process data")
         end
     | inr _ => JSON http.StatusInternalServerError
                  (ErrorBody "Failed to retrieve data")
     end,
     log ++ [CallQuery (Org h) (Raw.locationSent h now c)]).
Proof.
  intros Hloc. unfold GetDataFromDeviceByLocation, ShouldBindQuery.
  cbn [Start Stop].
  destruct (String.eqb_spec (Param c "location") "") as [E|_];
    [contradiction |].
  fold (Raw.startOf c) (Raw.stopOf now c). fold (Raw.locationSent h now c).
  unfold mbind, M_bind, influxdb2.bind, Query.
  destruct (query_answer _ _ _ _) as [result|err]; [| reflexivity].
  destruct (Err result); reflexivity.
Qed.

(** What a record of the raw handlers holds at each key. *)
Lemma rawRecord_lookup (values : gmap string Value) (k : string) :
  rawRecord values !! k
  = if String.eqb k "timestampSampled" then Some (index values "_time")
    else if String.eqb k "deviceId" then Some (index values "device_id")
    else if String.eqb k "temperature" then Some (index values "temperature")
    else if String.eqb k "humidity" then Some (index values "humidity")
    else if String.eqb k "location" then Some (index values "location")
    else None.
Proof.
  unfold rawRecord.
  destruct (String.eqb_spec k "timestampSampled") as [->|H1]; [reflexivity |].
  destruct (String.eqb_spec k "deviceId") as [->|H2]; [reflexivity |].
  destruct (String.eqb_spec k "temperature") as [->|H3]; [reflexivity |].
  destruct (String.eqb_spec k "humidity") as [->|H4]; [reflexivity |].
  destruct (String.eqb_spec k "location") as [->|H5]; [reflexivity |].
  rewrite !lookup_insert_ne by congruence.
  apply lookup_singleton_ne. congruence.
Qed.

End RawHandlers.

Section RawHandlerProperties.
Import models influxdb2 gin handlers.

(** X1. Whatever the request, [GetAllData] sends exactly one query, writes
    nothing and does not answer 400; for a bucket name without [%] the query
    is the pivoted fetch of the measurement over the range from [start]
    (default [-30d]) to [stop] (default: now). *)
Theorem GetAllData_query
    (h : RecordHandler) (now : string) (c : Context) (log : list Call) :
  Raw.noPercent (Bucket h) = true ->
  snd (GetAllData h now c log)
  = log ++ [CallQuery (Org h)
              (Raw.allDataQuery (Bucket h) (Raw.startOf c) (Raw.stopOf now c))]
  /\ status (fst (GetAllData h now c log)) <> http.StatusBadRequest.
Proof.
  intros Hb. rewrite GetAllData_run, (allDataSent_text h now c Hb).
  split; [reflexivity |]. cbn [fst].
  destruct (query_answer _ _ _ _) as [result|err];
    [destruct (Err result) |]; discriminate.
Qed.

(** Without query values the defaults are used. *)
Lemma GetAllData_query_witness :
  Raw.noPercent (Bucket Scenario.h) = true
  /\ snd (GetAllData Scenario.h Scenario.now (Cases.request ∅) [])
     = [] ++ [CallQuery "brewery"
                (Raw.allDataQuery "sensors" "-30d" Scenario.now)].
Proof.
  split; [reflexivity |].
  pose proof (GetAllData_query Scenario.h Scenario.now (Cases.request ∅) []
                eq_refl) as [Hq _].
  vm_compute in Hq |- *. exact Hq.
Defined.

(** X2. When the result stream of [GetAllData] reports an error, the rows
    read before it are discarded: the answer is 500 "Failed to process
    data". *)
Theorem GetAllData_stream_error
    (h : RecordHandler) (now : string) (c : Context) (log : list Call)
    (result : QueryTableResult) (e : string) :
  query_answer (InfluxClient h) log (Org h) (Raw.allDataSent h now c)
  = inl result ->
  Err result = Some e ->
  fst (GetAllData h now c log)
  = JSON http.StatusInternalServerError (ErrorBody "Failed to process data").
Proof.
  intros Hq He. rewrite GetAllData_run, Hq, He. reflexivity.
Qed.

(** A stream that breaks after one row. *)
Lemma GetAllData_stream_error_witness :
  fst (GetAllData
         (Cases.handlerOf
            (Cases.brokenStream
               [Scenario.pivotRow (Sent.pointOf Scenario.reading)]))
         Scenario.now (Cases.request ∅) [])
  = JSON http.StatusInternalServerError (ErrorBody "Failed to process data").
Proof.
  apply (GetAllData_stream_error
           (Cases.handlerOf
              (Cases.brokenStream
                 [Scenario.pivotRow (Sent.pointOf Scenario.reading)]))
           Scenario.now (Cases.request ∅) []
           {| rows := [Scenario.pivotRow (Sent.pointOf Scenario.reading)];
              Err := Some "unexpected EOF" |}
           "unexpected EOF");
    reflexivity.
Defined.

(** X3. When the store answers without error, [GetAllData] answers 200 with
    one record per row, in the order of the rows; every record has exactly
    the keys [timestampSampled], [deviceId], [temperature], [humidity] and
    [location], and a column the row does not have gives the value nil. *)
Theorem GetAllData_records
    (h : RecordHandler) (now : string) (c : Context) (log : list Call)
    (result : QueryTableResult) :
  query_answer (InfluxClient h) log (Org h) (Raw.allDataSent h now c)
  = inl result ->
  Err result = None ->
  fst (GetAllData h now c log)
  = JSON http.StatusOK (DataBody (map rawRecord (rows result)))
  /\ (forall i row, rows result !! i = Some row ->
        map rawRecord (rows result) !! i = Some (rawRecord row))
  /\ forall row, In row (rows result) ->
       (forall k, is_Some (rawRecord row !! k) <-> In k Raw.rawKeys)
       /\ rawRecord row !! "timestampSampled" = Some (index row "_time")
       /\ rawRecord row !! "deviceId" = Some (index row "device_id")
       /\ forall k, In k ["temperature"; "humidity"; "location"] ->
            rawRecord row !! k = Some (default VNil (row !! k)).
Proof.
  intros Hq He. rewrite GetAllData_run, Hq, He.
  split; [reflexivity |]. split.
  - intros i row Hi. rewrite list_lookup_fmap, Hi. reflexivity.
  - intros row _. split; [| split; [| split]].
    + intros k. rewrite rawRecord_lookup. cbn [In Raw.rawKeys]. split.
      * destruct (String.eqb_spec k "timestampSampled"); [subst; intros _; auto 10 |].
        destruct (String.eqb_spec k "deviceId"); [subst; intros _; auto 10 |].
        destruct (String.eqb_spec k "temperature"); [subst; intros _; auto 10 |].
        destruct (String.eqb_spec k "humidity"); [subst; intros _; auto 10 |].
        destruct (String.eqb_spec k "location"); [subst; intros _; auto 10 |].
        intros [v Hv]. discriminate Hv.
      * intros [<-|[<-|[<-|[<-|[<-|[]]]]]]; eexists; reflexivity.
    + now rewrite rawRecord_lookup.
    + now rewrite rawRecord_lookup.
    + intros k [<-|[<-|[<-|[]]]]; now rewrite rawRecord_lookup.
Qed.

(** A row without temperature and location. *)
Lemma GetAllData_records_witness :
  fst (GetAllData (Cases.handlerOf (Cases.answering [Cases.partialRow]))
         Scenario.now (Cases.request ∅) [])
  = JSON http.StatusOK (DataBody (map rawRecord [Cases.partialRow]))
  /\ rawRecord Cases.partialRow !! "temperature" = Some VNil.
Proof.
  destruct (GetAllData_records
              (Cases.handlerOf (Cases.answering [Cases.partialRow]))
              Scenario.now (Cases.request ∅) []
              {| rows := [Cases.partialRow]; Err := None |}
              eq_refl eq_refl) as (Hr & _ & Hk).
  split; [exact Hr |].
  destruct (Hk Cases.partialRow (or_introl eq_refl)) as (_ & _ & _ & Hn).
  exact (Hn "temperature" (or_introl eq_refl)).
Defined.

(** X4. [GetDataFromDeviceByLocation] answers an empty location with 400
    "location parameter is required" and does not call the store. *)
Theorem location_required
    (h : RecordHandler) (now : string) (c : Context) (log : list Call) :
  Param c "location" = "" ->
  GetDataFromDeviceByLocation h now c log
  = (JSON http.StatusBadRequest (ErrorBody "location parameter is required"),
     log).
Proof.
  intros Hloc. unfold GetDataFromDeviceByLocation, ShouldBindQuery.
  rewrite Hloc. reflexivity.
Qed.

(** A request without the path parameter. *)
Lemma location_required_witness :
  Param (Cases.request ∅) "location" = ""
  /\ GetDataFromDeviceByLocation Scenario.h Scenario.now (Cases.request ∅) []
     = (JSON http.StatusBadRequest
          (ErrorBody "location parameter is required"), []).
Proof.
  split; [reflexivity |].
  apply (location_required Scenario.h Scenario.now (Cases.request ∅) []).
  reflexivity.
Defined.

(** X5. For a location that is not empty, [GetDataFromDeviceByLocation]
    sends exactly one query, writes nothing and does not answer 400; for a
    bucket name without [%] the query is the pivoted fetch over the range,
    filtered on the location after the pivot; [aggr] and [aggFreq] play no
    part in it. *)
Theorem location_query
    (h : RecordHandler) (now : string) (c : Context) (log : list Call) :
  Param c "location" <> "" ->
  Raw.noPercent (Bucket h) = true ->
  snd (GetDataFromDeviceByLocation h now c log)
  = log ++ [CallQuery (Org h)
              (Raw.locationQuery (Bucket h) (Raw.startOf c)
                 (Raw.stopOf now c) (Param c "location"))]
  /\ status (fst (GetDataFromDeviceByLocation h now c log))
     <> http.StatusBadRequest.
Proof.
  intros Hloc Hb.
  rewrite (GetDataFromDeviceByLocation_run h now c log Hloc).
  rewrite (locationSent_text h now c Hb).
  split; [reflexivity |]. cbn [fst].
  destruct (query_answer _ _ _ _) as [result|err];
    [destruct (Err result) |]; discriminate.
Qed.

(** [GET /records/locations/Room 1?aggr=mean]. *)
Lemma location_query_witness :
  Param (Raw.getLocation "Room 1" {[ "aggr" := "mean" ]}) "location" <> ""
  /\ snd (GetDataFromDeviceByLocation Scenario.h Scenario.now
            (Raw.getLocation "Room 1" {[ "aggr" := "mean" ]}) [])
     = [] ++ [CallQuery "brewery"
                (Raw.locationQuery "sensors" "-30d" Scenario.now "Room 1")].
Proof.
  assert (Param (Raw.getLocation "Room 1" {[ "aggr" := "mean" ]}) "location"
          <> "") as Hloc by (vm_compute; discriminate).
  split; [exact Hloc |].
  pose proof (location_query Scenario.h Scenario.now
                (Raw.getLocation "Room 1" {[ "aggr" := "mean" ]}) []
                Hloc eq_refl) as [Hq _].
  vm_compute in Hq |- *. exact Hq.
Defined.

End RawHandlerProperties.

(* ===================================================================== *)
(** * More on the device query and on the shaper *)
(* ===================================================================== *)

Section DeviceQueryProperties.
Import models influxdb2 gin handlers.

(** X6. When the result stream of the device query reports an error, the
    records shaped before it are discarded: [GetDataFromDeviceByID] answers
    500 "Failed to retrieve data". *)
Theorem device_stream_error
    (h : RecordHandler) (now : string) (c : Context) (log : list Call)
    (result : QueryTableResult) (e : string) :
  query_answer (InfluxClient h) log (Org h) (Sent.deviceQuery h now c)
  = inl result ->
  Err result = Some e ->
  fst (GetDataFromDeviceByID h now c log)
  = JSON http.StatusInternalServerError (ErrorBody "Failed to retrieve data").
Proof.
  intros Hq He. rewrite GetDataFromDeviceByID_run, Hq, He. reflexivity.
Qed.

(** A stream that breaks after the row for [aggr=mean,max]. *)
Lemma device_stream_error_witness :
  fst (GetDataFromDeviceByID
         (Cases.handlerOf (Cases.brokenStream [Scenario.meanMaxRow]))
         Scenario.now (Scenario.getDeviceAggr "mean,max") [])
  = JSON http.StatusInternalServerError (ErrorBody "Failed to retrieve data").
Proof.
  apply (device_stream_error
           (Cases.handlerOf (Cases.brokenStream [Scenario.meanMaxRow]))
           Scenario.now (Scenario.getDeviceAggr "mean,max") []
           {| rows := [Scenario.meanMaxRow]; Err := Some "unexpected EOF" |}
           "unexpected EOF");
    reflexivity.
Defined.

(** X7. An [aggr] that is absent or empty makes [GetDataFromDeviceByID]
    send the raw fetch: the pivoted rows of the device over the range from
    [start] (default [-30d]) to [stop] (default: now), with bucket, range
    and device id put into the text as they are. *)
Theorem device_raw_query
    (h : RecordHandler) (now : string) (c : Context) (log : list Call) :
  QueryValues c !! "aggr" = None \/ QueryValues c !! "aggr" = Some "" ->
  snd (GetDataFromDeviceByID h now c log)
  = log ++ [CallQuery (Org h)
              (Sent.rawQuery (Bucket h) (Raw.startOf c) (Raw.stopOf now c)
                 (Param c "deviceId"))].
Proof.
  intros Haggr.
  destruct (GetDataFromDeviceByID_always_queries h now c log) as [-> _].
  unfold Sent.deviceQuery.
  assert (Aggr (Sent.boundParams now c) = "") as ->
    by (unfold Sent.boundParams; cbn [Aggr];
        destruct Haggr as [-> | ->]; reflexivity).
  reflexivity.
Qed.

(** [GET /records/devices/sensor_123?start=...&stop=...&aggr=]. *)
Lemma device_raw_query_witness :
  QueryValues (Scenario.getDeviceAggr "") !! "aggr" = Some ""
  /\ snd (GetDataFromDeviceByID Scenario.h Scenario.now
            (Scenario.getDeviceAggr "") [])
     = [] ++ [CallQuery "brewery"
                (Sent.rawQuery "sensors" "2024-02-01T00:00:00Z"
                   "2024-02-02T00:00:00Z" "sensor_123")].
Proof.
  assert (QueryValues (Scenario.getDeviceAggr "") !! "aggr" = Some "")
    as Haggr by (vm_compute; reflexivity).
  split; [exact Haggr |].
  pose proof (device_raw_query Scenario.h Scenario.now
                (Scenario.getDeviceAggr "") [] (or_intror Haggr)) as Hq.
  vm_compute in Hq |- *. exact Hq.
Defined.

(** X8. An [aggr] that is not empty and has no comma makes
    [GetDataFromDeviceByID] send the base filter followed by the single
    stage of that function over windows of [aggFreq] (default [1d]), pivoted
    directly, with no union. *)
Theorem device_single_aggregation_query
    (h : RecordHandler) (now : string) (c : Context) (log : list Call)
    (aggr : string) :
  QueryValues c !! "aggr" = Some aggr -> aggr <> "" ->
  Plan.hasComma aggr = false ->
  snd (GetDataFromDeviceByID h now c log)
  = log ++ [CallQuery (Org h)
              (Plan.baseFilter (Bucket h) (Raw.startOf c) (Raw.stopOf now c)
                 (Param c "deviceId")
               +:+ Plan.singleStage
                     (default "1d" (QueryValues c !! "aggFreq")) aggr)].
Proof.
  intros Haggr Hne Hc.
  destruct (GetDataFromDeviceByID_always_queries h now c log) as [-> _].
  assert (Aggr (Sent.boundParams now c) = aggr) as Ha
    by (unfold Sent.boundParams; cbn [Aggr]; now rewrite Haggr).
  unfold Sent.deviceQuery. rewrite Ha.
  destruct (String.eqb_spec aggr ""); [contradiction |].
  unfold buildAggregatedQuery.
  rewrite builder_single by now rewrite Ha.
  rewrite Ha, String_is_cat.
  change (Plan.cat [?a; ?b]) with (a +:+ b +:+ "").
  rewrite append_nil_r. reflexivity.
Qed.

(** [GET /records/devices/sensor_123?start=...&stop=...&aggr=mean]. *)
Lemma device_single_aggregation_query_witness :
  QueryValues (Scenario.getDeviceAggr "mean") !! "aggr" = Some "mean"
  /\ "mean" <> ""
  /\ Plan.hasComma "mean" = false
  /\ snd (GetDataFromDeviceByID Scenario.h Scenario.now
            (Scenario.getDeviceAggr "mean") [])
     = [] ++ [CallQuery "brewery"
                (Plan.baseFilter "sensors" "2024-02-01T00:00:00Z"
                   "2024-02-02T00:00:00Z" "sensor_123"
                 +:+ Plan.singleStage "1d" "mean")].
Proof.
  assert (QueryValues (Scenario.getDeviceAggr "mean") !! "aggr" = Some "mean")
    as Haggr by (vm_compute; reflexivity).
  assert ("mean" <> "") as Hne by discriminate.
  split; [exact Haggr |]. split; [exact Hne |]. split; [reflexivity |].
  pose proof (device_single_aggregation_query Scenario.h Scenario.now
                (Scenario.getDeviceAggr "mean") [] "mean" Haggr Hne eq_refl)
    as Hq.
  vm_compute in Hq |- *. exact Hq.
Defined.

End DeviceQueryProperties.

Section ShaperProperties.
Import models influxdb2 gin handlers.

Lemma HasPrefix_spec (s p : string) :
  Raw.HasPrefix s p = true <-> exists rest, s = p +:+ rest.
Proof.
  revert s. induction p as [|a p IH]; intros s.
  - split; [intros _; exists s; reflexivity | reflexivity].
  - destruct s as [|c s]; cbn [Raw.HasPrefix].
    + split; [discriminate | intros [rest Hr]; discriminate Hr].
    + rewrite andb_true_iff, IH. split.
      * intros [Hc [rest ->]]. apply Ascii.eqb_eq in Hc as ->.
        exists rest. reflexivity.
      * intros [rest Hr]. injection Hr as -> ->.
        split; [apply Ascii.eqb_refl | exists rest; reflexivity].
Qed.

(** The first token of a key is the whole key, or what stands before its
    first underscore. *)
Lemma first_token (k : string) :
  k = nth 0 (strings.Split k "_") EmptyString
  \/ exists rest,
       k = nth 0 (strings.Split k "_") EmptyString +:+ "_" +:+ rest.
Proof.
  induction k as [|c k IH]; [left; reflexivity |].
  cbn [strings.Split]. destruct (Ascii.eqb_spec c "_") as [->|Hc].
  - right. exists k. reflexivity.
  - pose proof (Split_nonempty k "_") as Hne.
    destruct (strings.Split k "_") as [|hd tl]; [congruence |].
    cbn [nth] in *. destruct IH as [IH|[rest IH]].
    + left. now rewrite <- IH.
    + right. exists rest. rewrite IH at 1. reflexivity.
Qed.

(** X9. The shaper keeps a key exactly when the key is one of [sum], [max],
    [mean], [min] or starts with one of them followed by an underscore: the
    test on the first token accepts what the prefix test left commented out
    in the source accepts, and the four bare names besides. *)
Theorem kept_iff_prefix (k : string) :
  Plan.kept k = true
  <-> In k supportedAggregations \/ Raw.hasAggregatePrefix k = true.
Proof.
  rewrite kept_true_iff, IsInArray_true_iff. split.
  - intros Hin. destruct (first_token k) as [Hk|[rest Hk]].
    + left. now rewrite Hk.
    + right. rewrite Hk. cbn [In supportedAggregations] in Hin.
      destruct Hin as [<-|[<-|[<-|[<-|[]]]]]; reflexivity.
  - intros [Hin|Hp].
    + cbn [In supportedAggregations] in Hin.
      destruct Hin as [<-|[<-|[<-|[<-|[]]]]]; cbn; tauto.
    + unfold Raw.hasAggregatePrefix in Hp.
      rewrite !orb_true_iff, !HasPrefix_spec in Hp.
      destruct Hp as [[[[rest ->]|[rest ->]]|[rest ->]]|[rest ->]];
        cbn; tauto.
Qed.

(** X10. For any row, the output record of the shaper has the keys
    [timestamp] and [device_id] (with the value nil when the row has no
    [_time] or no [device_id]) and, besides them, exactly the kept keys of
    the row, each with the value the row has. *)
Theorem processRecord_keys (values : gmap string Value) :
  (forall k, is_Some (processRecord values !! k) <->
     k = "timestamp" \/ k = "device_id"
     \/ (Plan.kept k = true /\ is_Some (values !! k)))
  /\ processRecord values !! "timestamp"
     = Some (default VNil (values !! "_time"))
  /\ processRecord values !! "device_id"
     = Some (default VNil (values !! "device_id"))
  /\ forall k, Plan.kept k = true -> processRecord values !! k = values !! k.
Proof.
  split; [| split; [| split]].
  - intros k. rewrite processRecord_lookup.
    destruct (Plan.kept k) eqn:Hk.
    + split; [intros Hs; right; right; tauto |].
      intros [->|[->|[_ Hs]]]; [discriminate Hk | discriminate Hk | exact Hs].
    + destruct (String.eqb_spec k "timestamp") as [->|Ht];
        [split; [tauto | eexists; reflexivity] |].
      destruct (String.eqb_spec k "device_id") as [->|Hd];
        [split; [tauto | eexists; reflexivity] |].
      split; [intros [v Hv]; discriminate Hv |].
      intros [->|[->|[Hf _]]]; [congruence | congruence | discriminate Hf].
  - now rewrite processRecord_lookup.
  - now rewrite processRecord_lookup.
  - intros k Hk. now rewrite processRecord_lookup, Hk.
Qed.

(** X11. No column whose name starts with an underscore ([_start], [_stop],
    [_time], [_measurement], [_field], [_value], ...) reaches an output
    record of the shaper. *)
Theorem processRecord_drops_underscore_columns
    (values : gmap string Value) (rest : string) :
  processRecord values !! String "_" rest = None.
Proof. rewrite processRecord_lookup. reflexivity. Qed.

End ShaperProperties.

Section IngestProperties.
Import models influxdb2 gin handlers.

(** Humidity 150 is outside the range. *)
Lemma PostData_rejects_out_of_range_witness :
  Body (Scenario.post (Scenario.withHumidity Scenario.f150))
  = Some (Scenario.withHumidity Scenario.f150)
  /\ is_float64 Scenario.f150 = true
  /\ float64_value Scenario.f150
     = Some (5277655813324800 # 35184372088832)%Q
  /\ (100 < 5277655813324800 # 35184372088832)%Q
  /\ exists msg,
       PostData Scenario.h
         (Scenario.post (Scenario.withHumidity Scenario.f150)) []
       = (JSON http.StatusBadRequest (ErrorBody msg), []).
Proof.
  split; [reflexivity |]. split; [reflexivity |]. split; [reflexivity |].
  split; [reflexivity |].
  apply (PostData_rejects_out_of_range Scenario.h
           (Scenario.post (Scenario.withHumidity Scenario.f150))
           (Scenario.withHumidity Scenario.f150) []
           (5277655813324800 # 35184372088832)%Q);
    [reflexivity | reflexivity | reflexivity | right; reflexivity].
Defined.

(** The reading of the scenario, humidity 55.0. *)
Lemma PostData_accepts_in_range_witness :
  ShouldBindJSON (Scenario.post Scenario.reading) = Some Scenario.reading
  /\ float64_value (Humidity Scenario.reading)
     = Some (7740561859543040 # 140737488355328)%Q
  /\ PostData Scenario.h (Scenario.post Scenario.reading) []
     = (JSON http.StatusOK
          (StoredBody "Data stored successfully" Scenario.reading),
        [] ++ [CallWrite "brewery" "sensors" (Sent.pointOf Scenario.reading)]).
Proof.
  split; [reflexivity |]. split; [reflexivity |].
  apply (PostData_accepts_in_range Scenario.h
           (Scenario.post Scenario.reading) Scenario.reading []
           (7740561859543040 # 140737488355328)%Q);
    [reflexivity | reflexivity | reflexivity |].
  split; discriminate.
Defined.

(** X14. [PostData] never queries the store and writes at most one point: a
    request is either answered 400 with the store untouched, or the point
    of the reading in its body is written once and the answer is 200 when
    the write succeeded and 500 when it failed. *)
Theorem PostData_store_effects
    (h : RecordHandler) (c : Context) (log : list Call) :
  (PostData h c log
   = (JSON http.StatusBadRequest (body (fst (PostData h c log))), log))
  \/ exists d,
       Body c = Some d
       /\ snd (PostData h c log)
          = log ++ [CallWrite (Org h) (Bucket h) (Sent.pointOf d)]
       /\ fst (PostData h c log)
          = match write_answer (InfluxClient h) log (Org h) (Bucket h)
                    (Sent.pointOf d) with
            | None => JSON http.StatusOK
                        (StoredBody "Data stored successfully" d)
            | Some _ => JSON http.StatusInternalServerError
                          (ErrorBody "Failed to store data")
            end.
Proof.
  unfold PostData.
  destruct (ShouldBindJSON c) as [d|] eqn:Hbind; [| left; reflexivity].
  destruct (flt (Humidity d) (float64_of_Z 0)
            || flt (float64_of_Z 100) (Humidity d)); [left; reflexivity |].
  right. exists d. split; [exact (binding_gives_body c d Hbind) |].
  unfold mbind, M_bind, influxdb2.bind, WritePoint.
  change (SetTime _ _) with (Sent.pointOf d).
  destruct (write_answer _ _ _ _ _); split; reflexivity.
Qed.

End IngestProperties.

(* ===================================================================== *)
(** * The dummy data *)
(* ===================================================================== *)

Section DummyData.
Import models influxdb2.

Lemma wrap64_small (z : Z) :
  - 2 ^ 63 <= z < 2 ^ 63 -> generator.wrap64 z = z.
Proof.
  intros Hz. unfold generator.wrap64. rewrite Z.mod_small by lia. lia.
Qed.

(** Printing an integer and reading it back. *)
Lemma Atoi_Itoa (z : Z) : generator.Atoi (generator.Itoa z) = Some z.
Proof.
  unfold generator.Atoi, generator.Itoa.
  rewrite NilZero.isi.
  - cbn [option_map]. now rewrite DecimalZ.of_to.
  - destruct z as [|p|p]; cbn; try discriminate.
    intros [= Hp]. exact (DecimalPos.Unsigned.to_uint_nonnil p Hp).
  - destruct z as [|p|p]; cbn; try discriminate.
    intros [= Hp]. exact (DecimalPos.Unsigned.to_uint_nonnil p Hp).
Qed.

Lemma twoDigits_below_hundred :
  forallb generator.twoDigits (map Z.of_nat (seq 0 100)) = true.
Proof. vm_compute. reflexivity. Qed.

Lemma twoDigits_small (arg : Z) :
  0 <= arg <= 99 -> generator.twoDigits arg = true.
Proof.
  intros Harg. pose proof twoDigits_below_hundred as Hall.
  rewrite forallb_forall in Hall. apply Hall.
  apply in_map_iff. exists (Z.to_nat arg).
  split; [lia | apply in_seq; lia].
Qed.

Lemma fixArgument_length (arg : Z) :
  0 <= arg <= 99 -> String.length (generator.fixArgument arg) = 2%nat.
Proof.
  intros Harg. pose proof (twoDigits_small arg Harg) as Hs.
  unfold generator.twoDigits in Hs.
  apply andb_true_iff in Hs as [Hl _]. now apply Nat.eqb_eq in Hl.
Qed.

Lemma fixArgument_reads_back (arg : Z) :
  0 <= arg < 2 ^ 63 ->
  generator.Atoi (generator.fixArgument arg) = Some arg.
Proof.
  intros Harg. destruct (Z.le_gt_cases arg 99) as [Hle|Hgt].
  - pose proof (twoDigits_small arg ltac:(lia)) as Hs.
    unfold generator.twoDigits in Hs.
    apply andb_true_iff in Hs as [_ Hs].
    destruct (generator.Atoi (generator.fixArgument arg)) as [z|];
      [| discriminate]. apply Z.eqb_eq in Hs. now subst.
  - unfold generator.fixArgument.
    rewrite wrap64_small by lia.
    destruct (Z.ltb_spec (arg - 10) 0); [lia |]. apply Atoi_Itoa.
Qed.

(** ** The three loops *)

(** Three nested loops are one loop over the triples. *)
Lemma loops_flatten {S : Type} (step : S -> Z -> Z -> Z -> S)
    (ds hs ms : list Z) (st : S) :
  fold_left
    (fun st d =>
       fold_left
         (fun st h => fold_left (fun st m => step st d h m) ms st) hs st)
    ds st
  = fold_left (fun st (slot : Z * Z * Z) =>
                 let '(d, h, m) := slot in step st d h m)
      (flat_map
         (fun d => flat_map (fun h => map (fun m => (d, h, m)) ms) hs) ds)
      st.
Proof.
  revert st. induction ds as [|d ds IHd]; intros st; [reflexivity |].
  cbn [fold_left flat_map]. rewrite fold_left_app, <- IHd. f_equal.
  clear IHd. revert st. induction hs as [|h hs IHh]; intros st;
    [reflexivity |].
  cbn [fold_left flat_map]. rewrite fold_left_app, <- IHh. f_equal.
  clear IHh. revert st. induction ms as [|m ms IHm]; intros st;
    [reflexivity |].
  cbn [fold_left map]. apply IHm.
Qed.

(** The loop over the triples appends one record per triple, with the
    timestamp of the triple. *)
Lemma slot_loop (rnd : nat -> float64) (sl : list (Z * Z * Z))
    (data : list (gmap string Value)) (n : nat) :
  exists recs,
    fst (fold_left
           (fun (st : list (gmap string Value) * nat) (slot : Z * Z * Z) =>
              let '(d, h, m) := slot in
              let '(data, n) := st in
              (data ++
               [generator.recordOf (generator.timestampText (d, h, m))
                  (SFadd prec emax (float64_of_Z 0)
                     (SFmul prec emax (rnd n) (float64_of_Z 100)))
                  (SFadd prec emax (float64_of_Z 14)
                     (SFmul prec emax (rnd (S n)) (float64_of_Z 7)))],
               S (S n)))
           sl (data, n))
    = data ++ recs
    /\ Forall2 (fun slot record =>
                  exists hum temp,
                    record
                    = generator.recordOf (generator.timestampText slot)
                        hum temp)
         sl recs.
Proof.
  revert data n. induction sl as [|[[d h] m] sl IH]; intros data n.
  - exists []. split; [cbn; now rewrite app_nil_r | constructor].
  - cbn [fold_left].
    destruct (IH (data ++
                  [generator.recordOf (generator.timestampText (d, h, m))
                     (SFadd prec emax (float64_of_Z 0)
                        (SFmul prec emax (rnd n) (float64_of_Z 100)))
                     (SFadd prec emax (float64_of_Z 14)
                        (SFmul prec emax (rnd (S n)) (float64_of_Z 7)))])
                 (S (S n))) as (recs & Hrecs & Hall).
    eexists (_ :: recs). split.
    + rewrite Hrecs, <- app_assoc. reflexivity.
    + constructor; [eauto | exact Hall].
Qed.

(** The generated data, record by record. *)
Lemma dummyData_records (rnd : nat -> float64) :
  Forall2 (fun slot record =>
             exists hum temp,
               record
               = generator.recordOf (generator.timestampText slot) hum temp)
    generator.slots (generator.dummyData rnd).
Proof.
  unfold generator.dummyData.
  rewrite (loops_flatten
             (fun (st : list (gmap string Value) * nat) d h m =>
                let '(data, n) := st in
                (data ++
                 [generator.recordOf (generator.timestampText (d, h, m))
                    (SFadd prec emax (float64_of_Z 0)
                       (SFmul prec emax (rnd n) (float64_of_Z 100)))
                    (SFadd prec emax (float64_of_Z 14)
                       (SFmul prec emax (rnd (S n)) (float64_of_Z 7)))],
                 S (S n)))).
  fold generator.slots.
  destruct (slot_loop rnd generator.slots [] 0%nat) as (recs & Hrecs & Hall).
  rewrite Hrecs. exact Hall.
Qed.

Lemma dummyData_length (rnd : nat -> float64) :
  length (generator.dummyData rnd) = 864%nat.
Proof.
  rewrite <- (Forall2_length _ _ _ (dummyData_records rnd)). reflexivity.
Qed.

Lemma timestampOf_recordOf (ts : string) (hum temp : float64) :
  generator.timestampOf (generator.recordOf ts hum temp) = ts.
Proof. reflexivity. Qed.

Lemma wellFormed_recordOf (ts : string) (hum temp : float64) :
  generator.wellFormed (generator.recordOf ts hum temp)
  = (String.length ts =? 20)%nat.
Proof.
  unfold generator.wellFormed. rewrite timestampOf_recordOf.
  change (generator.recordOf ts hum temp !! "deviceId")
    with (Some (VString "sensor_123")).
  change (generator.recordOf ts hum temp !! "location")
    with (Some (VString "Room 1")).
  change (generator.recordOf ts hum temp !! "humidity")
    with (Some (VFloat hum)).
  change (generator.recordOf ts hum temp !! "temperature")
    with (Some (VFloat temp)).
  cbn. now rewrite !andb_true_r.
Qed.

Lemma dummyData_timestamps (rnd : nat -> float64) :
  map generator.timestampOf (generator.dummyData rnd)
  = map generator.timestampText generator.slots.
Proof.
  pose proof (dummyData_records rnd) as Hall.
  induction Hall as [|slot record sl recs (hum & temp & ->) _ IH];
    [reflexivity |].
  cbn [map]. now rewrite timestampOf_recordOf, IH.
Qed.

Lemma slots_inRange (slot : Z * Z * Z) :
  In slot generator.slots -> generator.inRange slot = true.
Proof.
  assert (forallb generator.inRange generator.slots = true) as Hall
    by (vm_compute; reflexivity).
  rewrite forallb_forall in Hall. apply Hall.
Qed.

Lemma inRange_bounds (d h m : Z) :
  generator.inRange (d, h, m) = true ->
  0 <= d <= 99 /\ 0 <= h <= 99 /\ 0 <= m <= 99.
Proof.
  unfold generator.inRange. rewrite !andb_true_iff, !Z.leb_le. tauto.
Qed.

Lemma string_length_append (a b : string) :
  String.length (a +:+ b) = (String.length a + String.length b)%nat.
Proof.
  induction a as [|c a IH]; [reflexivity |]. cbn. now rewrite IH.
Qed.

Lemma timestampText_eq (d h m : Z) :
  generator.timestampText (d, h, m)
  = "2024-02-" +:+ generator.fixArgument d +:+ "T"
    +:+ generator.fixArgument h +:+ ":" +:+ generator.fixArgument m
    +:+ ":00Z".
Proof. reflexivity. Qed.

Lemma timestampText_length (slot : Z * Z * Z) :
  In slot generator.slots ->
  String.length (generator.timestampText slot) = 20%nat.
Proof.
  intros Hin. destruct slot as [[d h] m].
  destruct (inRange_bounds d h m (slots_inRange _ Hin)) as (Hd & Hh & Hm).
  rewrite timestampText_eq, !string_length_append.
  rewrite (fixArgument_length d Hd), (fixArgument_length h Hh),
    (fixArgument_length m Hm).
  reflexivity.
Qed.

Lemma two_characters (s : string) :
  String.length s = 2%nat -> exists a b, s = String a (String b "").
Proof.
  destruct s as [|a [|b [|c s]]]; cbn; try discriminate. eauto.
Qed.

(** Different slots have different timestamps. *)
Lemma timestampText_inj (s1 s2 : Z * Z * Z) :
  In s1 generator.slots -> In s2 generator.slots ->
  generator.timestampText s1 = generator.timestampText s2 -> s1 = s2.
Proof.
  intros H1 H2. destruct s1 as [[d1 h1] m1], s2 as [[d2 h2] m2].
  destruct (inRange_bounds _ _ _ (slots_inRange _ H1)) as (Hd1 & Hh1 & Hm1).
  destruct (inRange_bounds _ _ _ (slots_inRange _ H2)) as (Hd2 & Hh2 & Hm2).
  rewrite !timestampText_eq.
  pose proof (fixArgument_reads_back d1 ltac:(lia)) as Rd1.
  pose proof (fixArgument_reads_back d2 ltac:(lia)) as Rd2.
  pose proof (fixArgument_reads_back h1 ltac:(lia)) as Rh1.
  pose proof (fixArgument_reads_back h2 ltac:(lia)) as Rh2.
  pose proof (fixArgument_reads_back m1 ltac:(lia)) as Rm1.
  pose proof (fixArgument_reads_back m2 ltac:(lia)) as Rm2.
  destruct (two_characters _ (fixArgument_length d1 Hd1)) as (? & ? & Ed1).
  destruct (two_characters _ (fixArgument_length d2 Hd2)) as (? & ? & Ed2).
  destruct (two_characters _ (fixArgument_length h1 Hh1)) as (? & ? & Eh1).
  destruct (two_characters _ (fixArgument_length h2 Hh2)) as (? & ? & Eh2).
  destruct (two_characters _ (fixArgument_length m1 Hm1)) as (? & ? & Em1).
  destruct (two_characters _ (fixArgument_length m2 Hm2)) as (? & ? & Em2).
  rewrite Ed1, Ed2, Eh1, Eh2, Em1, Em2 in *. cbn. intros E.
  injection E as -> -> -> -> -> ->.
  congruence.
Qed.

Lemma Forall2_In_r {A B : Type} (P : A -> B -> Prop)
    (l : list A) (k : list B) (y : B) :
  Forall2 P l k -> In y k -> exists x, In x l /\ P x y.
Proof.
  induction 1 as [|x y' l k Hxy _ IH]; intros Hin; [destruct Hin |].
  destruct Hin as [<-|Hin].
  - exists x. split; [left; reflexivity | exact Hxy].
  - destruct (IH Hin) as (x' & Hx' & Hp). exists x'.
    split; [right; exact Hx' | exact Hp].
Qed.

Lemma slots_NoDup : NoDup generator.slots.
Proof.
  apply (NoDup_fmap_1 generator.slotKey).
  apply (bool_decide_unpack _). vm_compute. exact I.
Qed.

End DummyData.

Section DummyDataProperties.
Import models influxdb2.

(** X15. For an argument from 0 up to the largest [int], the text of
    [fixArgument] reads back as the argument, and up to 99 it has exactly
    two characters. *)
Theorem fixArgument_nonnegative (arg : Z) :
  0 <= arg < 2 ^ 63 ->
  generator.Atoi (generator.fixArgument arg) = Some arg
  /\ (arg <= 99 -> String.length (generator.fixArgument arg) = 2%nat).
Proof.
  intros Harg. split.
  - now apply fixArgument_reads_back.
  - intros Hle. apply fixArgument_length. lia.
Qed.

(** The minute 45. *)
Lemma fixArgument_nonnegative_witness :
  generator.Atoi (generator.fixArgument 45) = Some 45
  /\ (45 <= 99 -> String.length (generator.fixArgument 45) = 2%nat).
Proof. apply (fixArgument_nonnegative 45). split; [lia | reflexivity]. Defined.

(** X16. For a negative argument from [-2^63 + 10] on, [fixArgument] puts
    the 0 in front of the sign: the text is ["0-"] followed by the digits,
    and does not read back as a number.  For the ten smallest arguments
    (below [-2^63 + 10]) the difference [arg - 10] wraps around to a positive
    number: no 0 is put in front, and the text is the decimal of the
    argument, which reads back. *)
Theorem fixArgument_negative (arg : Z) :
  - 2 ^ 63 <= arg < 0 ->
  if - 2 ^ 63 + 10 <=? arg
  then generator.fixArgument arg = "0-" +:+ generator.Itoa (- arg)
       /\ generator.Atoi (generator.fixArgument arg) = None
  else generator.fixArgument arg = generator.Itoa arg
       /\ generator.Atoi (generator.fixArgument arg) = Some arg.
Proof.
  intros Harg. destruct (Z.leb_spec (- 2 ^ 63 + 10) arg) as [Hge|Hlt].
  - assert (generator.fixArgument arg = "0-" +:+ generator.Itoa (- arg)) as E.
    { unfold generator.fixArgument. rewrite wrap64_small by lia.
      destruct (Z.ltb_spec (arg - 10) 0); [| lia].
      destruct arg as [|p|p]; [lia | lia |].
      cbn [generator.Sprintf]. rewrite append_nil_r. reflexivity. }
    split; [exact E |]. rewrite E.
    unfold generator.Atoi. cbn.
    destruct (NilEmpty.uint_of_string (generator.Itoa (- arg))); reflexivity.
  - assert (generator.fixArgument arg = generator.Itoa arg) as E.
    { unfold generator.fixArgument.
      assert (generator.wrap64 (arg - 10) = arg - 10 + 2 ^ 64) as ->.
      { unfold generator.wrap64.
        rewrite <- (Z.mod_add _ 1) by lia. rewrite Z.mod_small by lia. lia. }
      destruct (Z.ltb_spec (arg - 10 + 2 ^ 64) 0); [lia | reflexivity]. }
    split; [exact E |]. rewrite E. apply Atoi_Itoa.
Qed.

(** The argument -5. *)
Lemma fixArgument_negative_witness :
  generator.fixArgument (-5) = "0-5"
  /\ generator.Atoi (generator.fixArgument (-5)) = None.
Proof.
  assert (- 2 ^ 63 <= -5 < 0) as Harg by lia.
  exact (fixArgument_negative (-5) Harg).
Defined.

(** The smallest [int]. *)
Example fixArgument_smallest :
  generator.fixArgument (- 2 ^ 63) = "-9223372036854775808"
  /\ generator.Atoi (generator.fixArgument (- 2 ^ 63)) = Some (- 2 ^ 63).
Proof. split; vm_compute; reflexivity. Qed.

(** X17. Whatever the random numbers, the generated data are 864 records
    (nine days, every quarter of an hour, from 2024-02-01T00:00:00Z on),
    each of device [sensor_123] in [Room 1] with a timestamp of 20
    characters and two numbers, and no two records have the same
    timestamp. *)
Theorem dummyData_shape (rnd : nat -> float64) :
  length (generator.dummyData rnd) = 864%nat
  /\ NoDup (map generator.timestampOf (generator.dummyData rnd))
  /\ (forall record, In record (generator.dummyData rnd) ->
        generator.wellFormed record = true)
  /\ firstn 5 (map generator.timestampOf (generator.dummyData rnd))
     = [ "2024-02-01T00:00:00Z"; "2024-02-01T00:15:00Z";
         "2024-02-01T00:30:00Z"; "2024-02-01T00:45:00Z";
         "2024-02-01T01:00:00Z" ].
Proof.
  split; [apply dummyData_length |]. split; [| split].
  - rewrite dummyData_timestamps.
    apply (NoDup_fmap_2_strong generator.timestampText).
    + intros s1 s2 H1 H2. apply timestampText_inj; now apply list_elem_of_In.
    + apply slots_NoDup.
  - intros record Hin.
    destruct (Forall2_In_r _ _ _ _ (dummyData_records rnd) Hin)
      as (slot & Hslot & hum & temp & ->).
    rewrite wellFormed_recordOf, (timestampText_length slot Hslot).
    reflexivity.
  - rewrite dummyData_timestamps. reflexivity.
Qed.

Lemma forward_responded
    (post : list (gmap string Value) -> string -> gmap string Value ->
            generator.PostResult)
    (url : string) (data sent : list (gmap string Value)) :
  (forall j record, data !! j = Some record ->
     post (sent ++ take j data) url record <> generator.Failed) ->
  generator.forward post url data sent = (generator.Returned, sent ++ data).
Proof.
  revert sent. induction data as [|record rest IH]; intros sent Hok.
  - cbn. now rewrite app_nil_r.
  - cbn [generator.forward].
    pose proof (Hok 0%nat record eq_refl) as H0.
    cbn [take] in H0. rewrite app_nil_r in H0.
    assert (generator.forward post url rest (sent ++ [record])
            = (generator.Returned, sent ++ record :: rest)) as E.
    { rewrite IH.
      - now rewrite <- app_assoc.
      - intros j r Hj. rewrite <- app_assoc. exact (Hok (S j) r Hj). }
    destruct (post sent url record); [exact E | contradiction | exact E].
Qed.

Lemma forward_failed
    (post : list (gmap string Value) -> string -> gmap string Value ->
            generator.PostResult)
    (url : string) (before : list (gmap string Value))
    (record : gmap string Value) (after sent : list (gmap string Value)) :
  (forall j r, before !! j = Some r ->
     post (sent ++ take j before) url r <> generator.Failed) ->
  post (sent ++ before) url record = generator.Failed ->
  generator.forward post url (before ++ record :: after) sent
  = (generator.Panicked, sent ++ before ++ [record]).
Proof.
  revert sent. induction before as [|r0 before IH]; intros sent Hok Hfail.
  - cbn [app generator.forward]. rewrite app_nil_r in Hfail.
    now rewrite Hfail.
  - cbn [app generator.forward].
    pose proof (Hok 0%nat r0 eq_refl) as H0.
    cbn [take] in H0. rewrite app_nil_r in H0.
    assert (generator.forward post url (before ++ record :: after)
              (sent ++ [r0])
            = (generator.Panicked, sent ++ r0 :: before ++ [record])) as E.
    { rewrite IH.
      - now rewrite <- app_assoc.
      - intros j r Hj. rewrite <- app_assoc. exact (Hok (S j) r Hj).
      - now rewrite <- app_assoc. }
    destruct (post sent url r0); [exact E | contradiction | exact E].
Qed.

(** X18. When no post fails without a response, [GenerateDummyData] posts
    every generated record once, in the order of generation, and returns. *)
Theorem GenerateDummyData_posts_all
    (rnd : nat -> float64)
    (post : list (gmap string Value) -> string -> gmap string Value ->
            generator.PostResult)
    (url : string) :
  (forall sent record, post sent url record <> generator.Failed) ->
  generator.GenerateDummyData rnd post url
  = (generator.Returned, generator.dummyData rnd).
Proof.
  intros Hok. unfold generator.GenerateDummyData.
  rewrite forward_responded; [reflexivity |].
  intros j record _. apply Hok.
Qed.

(** A server that answers every post. *)
Lemma GenerateDummyData_posts_all_witness :
  generator.GenerateDummyData Cases.zeros Cases.responding
    "http://localhost:8080/records"
  = (generator.Returned, generator.dummyData Cases.zeros).
Proof.
  apply (GenerateDummyData_posts_all Cases.zeros Cases.responding
           "http://localhost:8080/records").
  intros sent record. discriminate.
Defined.

(** X19. The first post that fails without a response ends
    [GenerateDummyData] with a panic: the records before it and the record
    itself have been posted, the records after it never are. *)
Theorem GenerateDummyData_panics_on_failed_post
    (rnd : nat -> float64)
    (post : list (gmap string Value) -> string -> gmap string Value ->
            generator.PostResult)
    (url : string) (k : nat) (record : gmap string Value) :
  generator.dummyData rnd !! k = Some record ->
  (forall j r, (j < k)%nat -> generator.dummyData rnd !! j = Some r ->
     post (take j (generator.dummyData rnd)) url r <> generator.Failed) ->
  post (take k (generator.dummyData rnd)) url record = generator.Failed ->
  generator.GenerateDummyData rnd post url
  = (generator.Panicked, take (S k) (generator.dummyData rnd)).
Proof.
  intros Hk Hok Hfail. unfold generator.GenerateDummyData.
  rewrite (take_S_r _ _ _ Hk).
  rewrite <- (take_drop_middle _ _ _ Hk) at 1.
  apply (forward_failed post url (take k (generator.dummyData rnd)) record
           (drop (S k) (generator.dummyData rnd)) []).
  - intros j r Hj. apply lookup_take_Some in Hj as [Hj Hlt].
    cbn [app]. rewrite take_take, Nat.min_l by lia. now apply Hok.
  - exact Hfail.
Qed.

(** A server that is not up: the first post fails. *)
Lemma GenerateDummyData_panics_on_failed_post_witness :
  generator.GenerateDummyData Cases.zeros Cases.refusing
    "http://localhost:8080/records"
  = (generator.Panicked, take 1 (generator.dummyData Cases.zeros)).
Proof.
  destruct (lookup_lt_is_Some_2 (generator.dummyData Cases.zeros) 0)
    as [record Hrecord]; [rewrite dummyData_length; lia |].
  apply (GenerateDummyData_panics_on_failed_post Cases.zeros Cases.refusing
           "http://localhost:8080/records" 0 record Hrecord).
  - intros j r Hj. lia.
  - reflexivity.
Defined.

End DummyDataProperties.


Section IngestAndFetch.
Import models influxdb2 gin handlers.

(** X20. The names [PostData] writes are the names the raw handlers read:
    from the pivoted row of the point written for a reading, the record of
    [GetAllData] and [GetDataFromDeviceByLocation] gives back the device
    id, the temperature, the humidity, the location and the time of the
    reading. *)
Theorem raw_round_trip (d : SensorData) :
  rawRecord (Scenario.pivotRow (Sent.pointOf d))
  = {[ "timestampSampled" := VTime (TimestampSampled d);
       "deviceId" := VString (DeviceID d);
       "temperature" := VFloat (Temperature d);
       "humidity" := VFloat (Humidity d);
       "location" := VString (Location d) ]}.
Proof. destruct d. vm_compute. reflexivity. Qed.

End IngestAndFetch.
